(** * toppy.webhook.cache: the vote cache and its two backends

    A shallow embedding of [src/toppy/webhook/cache.py].  The module keeps a
    counter file and a record store under the directory [toppy_vote_cache];
    [JSONDatabase] keeps the records in [votes.json], [SQLiteDatabase] in the
    table [votes] of [votes.db].

    Every coroutine of the module is awaited to completion by its caller and
    the module starts no task of its own, so a serial caller sees each
    [async def] as an ordinary procedure.  A procedure is embedded as a
    function from the state before the call to the state after it together
    with its outcome: the value returned or the exception raised.  What a
    procedure wrote before it raised stays written, as in Python.

    Calls to the logger change none of the state modelled here; they are left
    out, each at the place marked in the embedding. *)

From Stdlib Require Import ZArith String Ascii List DecimalString DecimalPos Lia.
From stdpp Require Import gmap strings list fin_maps.

#[local] Set Warnings "-register-all".

Open Scope string_scope.
Open Scope Z_scope.

(** ** Exceptions and outcomes *)

(** The exception classes the modelled code can raise. *)
Inductive exn : Type :=
| ValueError            (* int(), datetime.fromisoformat *)
| JSONDecodeError       (* json.loads *)
| TypeError
| IndexError
| KeyError
| AttributeError
| OverflowError
| FileNotFoundError
| FileExistsError
| NotADirectoryError
| IsADirectoryError
| UnicodeDecodeError
| UnsupportedOperation  (* io.UnsupportedOperation *)
| OperationalError      (* sqlite3 *)
| DatabaseError         (* sqlite3 *)
| IntegrityError        (* sqlite3 *)
| Unmodelled.           (* input outside of what the embedding represents *)

#[global] Instance exn_eq_dec : EqDecision exn.
Proof. solve_decision. Defined.

Inductive outcome (A : Type) : Type :=
| Return (a : A)
| Raise (e : exn).
Arguments Return {A} a.
Arguments Raise {A} e.

Definition raised {A} (o : outcome A) : bool :=
  match o with Return _ => false | Raise _ => true end.

(** A procedure over a state [W]. *)
Definition io (W A : Type) : Type := W -> W * outcome A.

Definition ret {W A} (a : A) : io W A := fun w => (w, Return a).

Definition throw {W A} (e : exn) : io W A := fun w => (w, Raise e).

Definition bind {W A B} (m : io W A) (k : A -> io W B) : io W B :=
  fun w =>
    match m w with
    | (w', Return a) => k a w'
    | (w', Raise e) => (w', Raise e)
    end.

(** A pure computation that may raise. *)
Definition lift {W A} (o : outcome A) : io W A := fun w => (w, o).

Declare Scope io_scope.
Delimit Scope io_scope with io.
Notation "x <- m ;; k" := (bind m (fun x => k))
  (at level 100, m at next level, right associativity) : io_scope.
Notation "m ;; k" := (bind m (fun _ => k))
  (at level 100, right associativity) : io_scope.

(** The same for computations without state. *)
Definition obind {A B} (o : outcome A) (k : A -> outcome B) : outcome B :=
  match o with Return a => k a | Raise e => Raise e end.

Declare Scope outcome_scope.
Delimit Scope outcome_scope with outcome.
Notation "x <- m ;; k" := (obind m (fun x => k))
  (at level 100, m at next level, right associativity) : outcome_scope.

Fixpoint omapM {A B} (f : A -> outcome B) (l : list A) : outcome (list B) :=
  match l with
  | [] => Return []
  | a :: l' =>
      (b <- f a ;; bs <- omapM f l' ;; Return (b :: bs))%outcome
  end.

(** ** The file system

    Paths are the strings the program passes to [os] and [aiofiles], relative
    to the working directory, which exists and can be written.  A file is a
    directory, a text file with its content, or a SQLite database image,
    which is kept as the database it encodes; the empty file is the text file
    [""], and SQLite reads it as a database without tables.  Failures of the
    medium (a full disk, missing permissions) are not modelled: an operation
    fails only for the shape of the tree. *)

Record row : Type := {
  r_number : Z;
  r_user_id : Z;
  r_time : string;
  r_site : string
}.

(** The table [votes], if it was created; rows in insertion (rowid) order. *)
Record database : Type := { votes : option (list row) }.

Inductive node : Type :=
| Dir
| File (content : string)
| Sqlite (db : database).

Abbreviation fsys := (gmap string node).

(** The part of [p] before its last ['/'], if it has one. *)
Fixpoint dirname (p : string) : option string :=
  match p with
  | EmptyString => None
  | String c p' =>
      match dirname p' with
      | Some d => Some (String c d)
      | None => if Ascii.eqb c "/" then Some EmptyString else None
      end
  end.

(** [os.stat]: the node at [p], [None] when the last component is missing;
    raises when the parent is missing or is no directory. *)
Definition stat (fs : fsys) (p : string) : outcome (option node) :=
  match dirname p with
  | None | Some EmptyString => Return (fs !! p)
  | Some d =>
      match fs !! d with
      | Some Dir => Return (fs !! p)
      | Some _ => Raise NotADirectoryError
      | None => Raise FileNotFoundError
      end
  end.

(** [os.path.exists] *)
Definition path_exists (p : string) : io fsys bool :=
  fun fs =>
    (fs, Return match stat fs p with Return (Some _) => true | _ => false end).

(** [os.mkdir] *)
Definition os_mkdir (p : string) : io fsys unit :=
  fun fs =>
    match stat fs p with
    | Raise e => (fs, Raise e)
    | Return (Some _) => (fs, Raise FileExistsError)
    | Return None => (<[p := Dir]> fs, Return tt)
    end.

Inductive mode : Type := R | W.

Record handle : Type := { h_path : string; h_mode : mode }.

(** [aiofiles.open(p, mode)]; mode ['w'] creates or truncates the file. *)
Definition aio_open (p : string) (m : mode) : io fsys handle :=
  fun fs =>
    match stat fs p with
    | Raise e => (fs, Raise e)
    | Return (Some Dir) => (fs, Raise IsADirectoryError)
    | Return None =>
        match m with
        | R => (fs, Raise FileNotFoundError)
        | W => (<[p := File ""]> fs, Return {| h_path := p; h_mode := W |})
        end
    | Return (Some _) =>
        match m with
        | R => (fs, Return {| h_path := p; h_mode := R |})
        | W => (<[p := File ""]> fs, Return {| h_path := p; h_mode := W |})
        end
    end.

(** [f.read()] of a file just opened: its whole content. *)
Definition aio_read (f : handle) : io fsys string :=
  fun fs =>
    match h_mode f with
    | W => (fs, Raise UnsupportedOperation)
    | R =>
        match fs !! h_path f with
        | Some (File s) => (fs, Return s)
        | Some (Sqlite _) => (fs, Raise UnicodeDecodeError)
        | _ => (fs, Raise Unmodelled)
        end
    end.

(** [f.write(s)]: appends at the position of the handle, the end of what was
    written through it; a handle opened for reading refuses. *)
Definition aio_write (f : handle) (s : string) : io fsys unit :=
  fun fs =>
    match h_mode f with
    | R => (fs, Raise UnsupportedOperation)
    | W =>
        match fs !! h_path f with
        | Some (File old) => (<[h_path f := File (old +:+ s)]> fs, Return tt)
        | _ => (fs, Raise Unmodelled)
        end
    end.

(** [f.close()], also what leaving [async with] does: the content is already
    in the file system of the model. *)
Definition aio_close (f : handle) : io fsys unit := ret tt.

(** ** Python values and built-ins

    A [str] is a Rocq string, one [ascii] per code point; this covers the
    code points below 256.  A [float] is kept as the text that denotes it. *)

Inductive pyval : Type :=
| PNone
| PBool (b : bool)
| PInt (z : Z)
| PFloat (lexeme : string)
| PStr (s : string)
| PList (l : list pyval)
| PDict (d : list (string * pyval)).

Definition code (c : ascii) : Z := Z.of_N (N_of_ascii c).

Definition chars (s : string) : list ascii := list_ascii_of_string s.
Definition text (l : list ascii) : string := string_of_list_ascii l.

Definition char1 (c : ascii) : pyval := PStr (String c EmptyString).

(** [l[i]] for a sequence: a negative index counts from the end. *)
Definition seq_index {A} (l : list A) (i : Z) : outcome A :=
  let n := Z.of_nat (length l) in
  let j := if i <? 0 then i + n else i in
  if (j <? 0) || (n <=? j) then Raise IndexError
  else match nth_error l (Z.to_nat j) with
       | Some a => Return a
       | None => Raise IndexError
       end.

(** [v[i]] with an [int] subscript.  A dict loaded from JSON has string keys
    only, so an [int] is never one of them. *)
Definition getitem (v : pyval) (i : Z) : outcome pyval :=
  match v with
  | PList l => seq_index l i
  | PStr s => (c <- seq_index (chars s) i ;; Return (char1 c))%outcome
  | PDict _ => Raise KeyError
  | _ => Raise TypeError
  end.

(** [for d in v] *)
Definition iterate (v : pyval) : outcome (list pyval) :=
  match v with
  | PList l => Return l
  | PStr s => Return (map char1 (chars s))
  | PDict d => Return (map (fun kv => PStr (fst kv)) d)
  | _ => Raise TypeError
  end.

(** [v.append(x)]: only a list has the method. *)
Definition append (v x : pyval) : outcome pyval :=
  match v with
  | PList l => Return (PList (l ++ [x]))
  | _ => Raise AttributeError
  end.

Definition digit_of (c : ascii) : option Z :=
  let n := code c in
  if (48 <=? n) && (n <=? 57) then Some (n - 48) else None.

(** [str.isspace] on the code points below 256 *)
Definition is_space (c : ascii) : bool :=
  let n := code c in
  ((9 <=? n) && (n <=? 13)) || ((28 <=? n) && (n <=? 32)) || (n =? 133) || (n =? 160).

Fixpoint lstrip (s : list ascii) : list ascii :=
  match s with
  | c :: s' => if is_space c then lstrip s' else s
  | [] => []
  end.

Definition strip (s : list ascii) : list ascii := rev (lstrip (rev (lstrip s))).

(** Decimal digits with single underscores between them. *)
Fixpoint int_digits (s : list ascii) (acc : Z) (after_digit : bool) : option Z :=
  match s with
  | [] => if after_digit then Some acc else None
  | c :: s' =>
      match digit_of c with
      | Some d => int_digits s' (10 * acc + d) true
      | None =>
          if Ascii.eqb c "_" && after_digit then int_digits s' acc false else None
      end
  end.

(** [int(s)] for a [str]: surrounding white space, a sign, decimal digits. *)
Definition int_of_str (s : string) : outcome Z :=
  let body := strip (chars s) in
  let signed :=
    match body with
    | "-"%char :: ds => option_map Z.opp (int_digits ds 0 false)
    | "+"%char :: ds => int_digits ds 0 false
    | ds => int_digits ds 0 false
    end in
  match signed with
  | Some z => Return z
  | None => Raise ValueError
  end.

(** [str(z)] for an [int] *)
Definition str_of_int (z : Z) : string := NilZero.string_of_int (Z.to_int z).

(** ** json *)

Definition dquote : ascii := "034"%char.
Definition backslash : ascii := "092"%char.

Definition hex_digit (n : Z) : ascii :=
  ascii_of_N (Z.to_N (if n <? 10 then 48 + n else 87 + n)).

(** One character of a [str] as [json.dumps] writes it ([ensure_ascii]). *)
Definition escape_char (c : ascii) : string :=
  let n := code c in
  if Ascii.eqb c dquote then String backslash (String dquote EmptyString)
  else if Ascii.eqb c backslash then String backslash (String backslash EmptyString)
  else if n =? 8 then String backslash "b"
  else if n =? 12 then String backslash "f"
  else if n =? 10 then String backslash "n"
  else if n =? 13 then String backslash "r"
  else if n =? 9 then String backslash "t"
  else if (32 <=? n) && (n <=? 126) then String c EmptyString
  else String backslash "u00"
         +:+ String (hex_digit (n / 16)) (String (hex_digit (n mod 16)) EmptyString).

Definition dumps_str (s : string) : string :=
  String dquote (String.concat "" (map escape_char (chars s)))
    +:+ String dquote EmptyString.

Fixpoint spaces (n : nat) : string :=
  match n with O => "" | S n' => String " " (spaces n') end.

(** [json.dumps(v, indent=indent)] at nesting depth [level]. *)
Fixpoint dumps_at (indent : option nat) (level : nat) (v : pyval) : string :=
  let open_line :=
    match indent with
    | Some k => String "010" (spaces (k * S level))
    | None => ""
    end in
  let close_line :=
    match indent with
    | Some k => String "010" (spaces (k * level))
    | None => ""
    end in
  let item_sep :=
    match indent with
    | Some _ => "," +:+ open_line
    | None => ", "
    end in
  match v with
  | PNone => "null"
  | PBool true => "true"
  | PBool false => "false"
  | PInt z => str_of_int z
  | PFloat lexeme => lexeme
  | PStr s => dumps_str s
  | PList [] => "[]"
  | PList l =>
      "[" +:+ open_line
          +:+ String.concat item_sep (map (dumps_at indent (S level)) l)
          +:+ close_line +:+ "]"
  | PDict [] => "{}"
  | PDict d =>
      "{" +:+ open_line
          +:+ String.concat item_sep
                (map (fun kv => dumps_str (fst kv) +:+ ": "
                                  +:+ dumps_at indent (S level) (snd kv)) d)
          +:+ close_line +:+ "}"
  end.

Definition json_dumps (indent : option nat) (v : pyval) : string :=
  dumps_at indent 0 v.

(** [json.loads]: the grammar of the decoder, strict mode. *)

Definition is_json_ws (c : ascii) : bool :=
  let n := code c in (n =? 32) || (n =? 9) || (n =? 10) || (n =? 13).

Fixpoint skip_ws (s : list ascii) : list ascii :=
  match s with
  | c :: s' => if is_json_ws c then skip_ws s' else s
  | [] => []
  end.

(** The rest of [s] after its first character, when that one is [c]. *)
Definition after (c : ascii) (s : list ascii) : option (list ascii) :=
  match s with
  | x :: s' => if Ascii.eqb x c then Some s' else None
  | [] => None
  end.

Fixpoint after_word (w s : list ascii) : option (list ascii) :=
  match w with
  | [] => Some s
  | c :: w' => match after c s with Some s' => after_word w' s' | None => None end
  end.

Definition hex_value (c : ascii) : option Z :=
  let n := code c in
  if (48 <=? n) && (n <=? 57) then Some (n - 48)
  else if (97 <=? n) && (n <=? 102) then Some (n - 87)
  else if (65 <=? n) && (n <=? 70) then Some (n - 55)
  else None.

Definition hex4 (a b c d : ascii) : option Z :=
  match hex_value a, hex_value b, hex_value c, hex_value d with
  | Some x, Some y, Some z, Some w => Some (((x * 16 + y) * 16 + z) * 16 + w)
  | _, _, _, _ => None
  end.

Definition unescape (c : ascii) : option ascii :=
  if Ascii.eqb c dquote then Some dquote
  else if Ascii.eqb c backslash then Some backslash
  else if Ascii.eqb c "/" then Some "/"%char
  else if Ascii.eqb c "b" then Some "008"%char
  else if Ascii.eqb c "f" then Some "012"%char
  else if Ascii.eqb c "n" then Some "010"%char
  else if Ascii.eqb c "r" then Some "013"%char
  else if Ascii.eqb c "t" then Some "009"%char
  else None.

(** The body of a string, after its opening quote, and what follows it. *)
Fixpoint scanstring (s : list ascii) : outcome (list ascii * list ascii) :=
  match s with
  | [] => Raise JSONDecodeError
  | c :: s' =>
      if Ascii.eqb c dquote then Return ([], s')
      else if Ascii.eqb c backslash then
        match s' with
        | [] => Raise JSONDecodeError
        | e :: s'' =>
            if Ascii.eqb e "u" then
              match s'' with
              | h1 :: h2 :: h3 :: h4 :: r =>
                  match hex4 h1 h2 h3 h4 with
                  | None => Raise JSONDecodeError
                  | Some n =>
                      if n <? 256 then
                        (p <- scanstring r ;;
                         Return (ascii_of_N (Z.to_N n) :: fst p, snd p))%outcome
                      else Raise Unmodelled
                  end
              | _ => Raise JSONDecodeError
              end
            else
              match unescape e with
              | Some x => (p <- scanstring s'' ;; Return (x :: fst p, snd p))%outcome
              | None => Raise JSONDecodeError
              end
        end
      else if code c <? 32 then Raise JSONDecodeError
      else (p <- scanstring s' ;; Return (c :: fst p, snd p))%outcome
  end.

(** The longest prefix of digits, and the rest. *)
Fixpoint span_digits (s : list ascii) : list ascii * list ascii :=
  match s with
  | c :: s' =>
      match digit_of c with
      | Some _ => let (ds, r) := span_digits s' in (c :: ds, r)
      | None => ([], s)
      end
  | [] => ([], [])
  end.

Definition digits_value (ds : list ascii) : Z :=
  fold_left (fun acc c => 10 * acc + default 0 (digit_of c)) ds 0.

(** A number: an optional minus, then 0 or digits that do not start with 0,
    then optionally a point with digits, then optionally an exponent.  With
    neither fraction nor exponent it is an [int], else a [float]. *)
Definition scan_number (s : list ascii) : option (pyval * list ascii) :=
  let (sign, s1) :=
    match after "-" s with Some r => (["-"%char], r) | None => ([], s) end in
  let int_part :=
    match after "0" s1 with
    | Some r => Some (["0"%char], r)
    | None =>
        match span_digits s1 with
        | ([], _) => None
        | (ds, r) => Some (ds, r)
        end
    end in
  match int_part with
  | None => None
  | Some (ds, r) =>
      let (frac, r1) :=
        match after "." r with
        | Some r' =>
            match span_digits r' with
            | ([], _) => ([], r)
            | (fs, r'') => ("."%char :: fs, r'')
            end
        | None => ([], r)
        end in
      let (expo, r2) :=
        match r1 with
        | e :: r' =>
            if Ascii.eqb e "e" || Ascii.eqb e "E" then
              let (sg, r'') :=
                match r' with
                | x :: y =>
                    if Ascii.eqb x "+" || Ascii.eqb x "-" then ([x], y) else ([], r')
                | [] => ([], r')
                end in
              match span_digits r'' with
              | ([], _) => ([], r1)
              | (es, r3) => (e :: sg ++ es, r3)
              end
            else ([], r1)
        | [] => ([], r1)
        end in
      match frac, expo with
      | [], [] =>
          Some (PInt (if sign is [] then digits_value ds else - digits_value ds), r2)
      | _, _ => Some (PFloat (text (sign ++ ds ++ frac ++ expo)), r2)
      end
  end.

(** What is neither a string, an array nor an object. *)
Definition scan_atom (s : list ascii) : outcome (pyval * list ascii) :=
  match after_word (chars "null") s with
  | Some r => Return (PNone, r)
  | None =>
  match after_word (chars "true") s with
  | Some r => Return (PBool true, r)
  | None =>
  match after_word (chars "false") s with
  | Some r => Return (PBool false, r)
  | None =>
  match scan_number s with
  | Some p => Return p
  | None =>
  match after_word (chars "NaN") s with
  | Some r => Return (PFloat "NaN", r)
  | None =>
  match after_word (chars "Infinity") s with
  | Some r => Return (PFloat "Infinity", r)
  | None =>
  match after_word (chars "-Infinity") s with
  | Some r => Return (PFloat "-Infinity", r)
  | None => Raise JSONDecodeError
  end end end end end end end.

(** A key given twice keeps its first place and its last value. *)
Fixpoint dict_set (k : string) (v : pyval) (d : list (string * pyval)) : list (string * pyval) :=
  match d with
  | [] => [(k, v)]
  | (k', v') :: d' =>
      if String.eqb k k' then (k, v) :: d' else (k', v') :: dict_set k v d'
  end.

Definition dict_of (kvs : list (string * pyval)) : list (string * pyval) :=
  fold_left (fun d kv => dict_set (fst kv) (snd kv) d) kvs [].

(** One value at the head of [s].  Every call consumes input, so [fuel]
    above twice the length of the text is never used up. *)
Fixpoint scan_once (fuel : nat) (s : list ascii) {struct fuel}
  : outcome (pyval * list ascii) :=
  match fuel with
  | O => Raise Unmodelled
  | S fuel' =>
      match s with
      | [] => Raise JSONDecodeError
      | c :: s' =>
          if Ascii.eqb c dquote then
            (p <- scanstring s' ;; Return (PStr (text (fst p)), snd p))%outcome
          else if Ascii.eqb c "[" then
            match after "]" (skip_ws s') with
            | Some r => Return (PList [], r)
            | None =>
                (p <- scan_items fuel' (skip_ws s') ;;
                 Return (PList (fst p), snd p))%outcome
            end
          else if Ascii.eqb c "{" then
            match after "}" (skip_ws s') with
            | Some r => Return (PDict [], r)
            | None =>
                (p <- scan_pairs fuel' (skip_ws s') ;;
                 Return (PDict (dict_of (fst p)), snd p))%outcome
            end
          else scan_atom s
      end
  end
with scan_items (fuel : nat) (s : list ascii) {struct fuel}
  : outcome (list pyval * list ascii) :=
  match fuel with
  | O => Raise Unmodelled
  | S fuel' =>
      (p <- scan_once fuel' s ;;
       let r := skip_ws (snd p) in
       match after "," r, after "]" r with
       | Some r', _ =>
           q <- scan_items fuel' (skip_ws r') ;; Return (fst p :: fst q, snd q)
       | None, Some r' => Return ([fst p], r')
       | None, None => Raise JSONDecodeError
       end)%outcome
  end
with scan_pairs (fuel : nat) (s : list ascii) {struct fuel}
  : outcome (list (string * pyval) * list ascii) :=
  match fuel with
  | O => Raise Unmodelled
  | S fuel' =>
      match after dquote s with
      | None => Raise JSONDecodeError
      | Some s1 =>
          (k <- scanstring s1 ;;
           match after ":" (skip_ws (snd k)) with
           | None => Raise JSONDecodeError
           | Some s2 =>
               v <- scan_once fuel' (skip_ws s2) ;;
               let r := skip_ws (snd v) in
               let kv := (text (fst k), fst v) in
               match after "," r, after "}" r with
               | Some r', _ =>
                   q <- scan_pairs fuel' (skip_ws r') ;; Return (kv :: fst q, snd q)
               | None, Some r' => Return ([kv], r')
               | None, None => Raise JSONDecodeError
               end
           end)%outcome
      end
  end.

Definition json_loads (s : string) : outcome pyval :=
  let cs := chars s in
  (p <- scan_once (2 * length cs + 2) (skip_ws cs) ;;
   match skip_ws (snd p) with
   | [] => Return (fst p)
   | _ => Raise JSONDecodeError
   end)%outcome.

(** ** datetime

    [utcoffset] is the offset of the time zone in microseconds, [None] for a
    datetime without one. *)

Record datetime : Type := {
  year : Z;
  month : Z;
  day : Z;
  hour : Z;
  minute : Z;
  second : Z;
  microsecond : Z;
  utcoffset : option Z
}.

Definition is_leap (y : Z) : bool :=
  (y mod 4 =? 0) && (negb (y mod 100 =? 0) || (y mod 400 =? 0)).

Definition days_in_month (y m : Z) : Z :=
  if m =? 2 then (if is_leap y then 29 else 28)
  else if (m =? 4) || (m =? 6) || (m =? 9) || (m =? 11) then 30
  else 31.

Definition day_us : Z := 86400000000.

(** The ranges the constructor of [datetime] checks. *)
Definition valid_datetime (t : datetime) : bool :=
  (1 <=? year t) && (year t <=? 9999)
  && (1 <=? month t) && (month t <=? 12)
  && (1 <=? day t) && (day t <=? days_in_month (year t) (month t))
  && (0 <=? hour t) && (hour t <=? 23)
  && (0 <=? minute t) && (minute t <=? 59)
  && (0 <=? second t) && (second t <=? 59)
  && (0 <=? microsecond t) && (microsecond t <=? 999999)
  && match utcoffset t with
     | Some off => (- day_us <? off) && (off <? day_us)
     | None => true
     end.

Fixpoint zeros (n : nat) : string :=
  match n with O => "" | S n' => String "0" (zeros n') end.

(** ["%0<width>d" % n] *)
Definition pad (width : nat) (n : Z) : string :=
  let s := str_of_int n in
  zeros (width - String.length s) +:+ s.

Definition format_offset (off : Z) : string :=
  let a := Z.abs off in
  let ss := (a / 1000000) mod 60 in
  let us := a mod 1000000 in
  (if off <? 0 then "-" else "+")
    +:+ pad 2 (a / 3600000000) +:+ ":" +:+ pad 2 ((a / 60000000) mod 60)
    +:+ (if (ss =? 0) && (us =? 0) then ""
         else ":" +:+ pad 2 ss +:+ (if us =? 0 then "" else "." +:+ pad 6 us)).

(** [t.isoformat()] *)
Definition isoformat (t : datetime) : string :=
  pad 4 (year t) +:+ "-" +:+ pad 2 (month t) +:+ "-" +:+ pad 2 (day t)
    +:+ "T" +:+ pad 2 (hour t) +:+ ":" +:+ pad 2 (minute t) +:+ ":" +:+ pad 2 (second t)
    +:+ (if microsecond t =? 0 then "" else "." +:+ pad 6 (microsecond t))
    +:+ match utcoffset t with
        | Some off => format_offset off
        | None => ""
        end.

(** Exactly [k] digits at the head of [s]. *)
Fixpoint fixed_digits (k : nat) (acc : Z) (s : list ascii) : option (Z * list ascii) :=
  match k with
  | O => Some (acc, s)
  | S k' =>
      match s with
      | c :: s' =>
          match digit_of c with
          | Some d => fixed_digits k' (10 * acc + d) s'
          | None => None
          end
      | [] => None
      end
  end.

(** [c] and then [k] digits, when [s] starts with [c]; [absent] otherwise. *)
Definition opt_field (c : ascii) (k : nat) (s : list ascii)
  : option (option Z * list ascii) :=
  match after c s with
  | None => Some (None, s)
  | Some s' =>
      match fixed_digits k 0 s' with
      | Some (n, r) => Some (Some n, r)
      | None => None
      end
  end.

(** [.ffffff] or [.fff] in microseconds, or nothing. *)
Definition opt_fraction (s : list ascii) : option (Z * list ascii) :=
  match after "." s with
  | None => Some (0, s)
  | Some s' =>
      match fixed_digits 6 0 s' with
      | Some p => Some p
      | None =>
          match fixed_digits 3 0 s' with
          | Some (n, r) => Some (n * 1000, r)
          | None => None
          end
      end
  end.

(** [HH[:MM[:SS[.fff[fff]]]]] *)
Definition parse_time (s : list ascii) : option (Z * Z * Z * Z * list ascii) :=
  match fixed_digits 2 0 s with
  | None => None
  | Some (hh, r) =>
      match opt_field ":" 2 r with
      | None => None
      | Some (None, r1) => Some (hh, 0, 0, 0, r1)
      | Some (Some mm, r1) =>
          match opt_field ":" 2 r1 with
          | None => None
          | Some (None, r2) => Some (hh, mm, 0, 0, r2)
          | Some (Some ss, r2) =>
              match opt_fraction r2 with
              | None => None
              | Some (us, r3) => Some (hh, mm, ss, us, r3)
              end
          end
      end
  end.

(** [+HH:MM[:SS[.ffffff]]] or [-HH:MM[:SS[.ffffff]]] up to the end, or nothing. *)
Definition parse_offset (s : list ascii) : option (option Z) :=
  match s with
  | [] => Some None
  | c :: s' =>
      if Ascii.eqb c "+" || Ascii.eqb c "-" then
        match fixed_digits 2 0 s' with
        | None => None
        | Some (hh, r) =>
            match after ":" r with
            | None => None
            | Some r0 =>
                match fixed_digits 2 0 r0 with
                | None => None
                | Some (mm, r1) =>
                    match opt_field ":" 2 r1 with
                    | None => None
                    | Some (oss, r2) =>
                        match (if oss is Some _ then opt_field "." 6 r2
                               else Some (None, r2)) with
                        | Some (ous, []) =>
                            let a := ((hh * 60 + mm) * 60 + default 0 oss) * 1000000
                                     + default 0 ous in
                            Some (Some (if Ascii.eqb c "-" then - a else a))
                        | _ => None
                        end
                    end
                end
            end
        end
      else None
  end.

(** [datetime.fromisoformat]: the documented format,
    [YYYY-MM-DD[*HH[:MM[:SS[.fff[fff]]]][+HH:MM[:SS[.ffffff]]]]], where [*]
    is any one character. *)
Definition fromisoformat (s : string) : outcome datetime :=
  let parsed :=
    match fixed_digits 4 0 (chars s) with
    | None => None
    | Some (y, r) =>
        match opt_field "-" 2 r with
        | Some (Some m, r1) =>
            match opt_field "-" 2 r1 with
            | Some (Some d, []) =>
                Some {| year := y; month := m; day := d; hour := 0; minute := 0;
                        second := 0; microsecond := 0; utcoffset := None |}
            | Some (Some d, _ :: r2) =>
                match parse_time r2 with
                | Some (hh, mm, ss, us, r3) =>
                    match parse_offset r3 with
                    | Some off =>
                        Some {| year := y; month := m; day := d; hour := hh;
                                minute := mm; second := ss; microsecond := us;
                                utcoffset := off |}
                    | None => None
                    end
                | None => None
                end
            | _ => None
            end
        | _ => None
        end
    end in
  match parsed with
  | Some t => if valid_datetime t then Return t else Raise ValueError
  | None => Raise ValueError
  end.

(** ** sqlite3 through aiosqlite

    A connection knows its file and the transaction it has open, if any: the
    database as the statements of the transaction left it, not yet in the
    file.  The only table modelled is [votes] with the columns the module
    declares. *)

Record connection : Type := { db_path : string; pending : option database }.

Definition empty_db : database := {| votes := None |}.

(** [aiosqlite.connect(p)]: opens the file for reading and writing and
    creates it when it is missing. *)
Definition sqlite_connect (p : string) : io fsys connection :=
  fun fs =>
    match stat fs p with
    | Raise _ | Return (Some Dir) => (fs, Raise OperationalError)
    | Return None =>
        (<[p := File EmptyString]> fs, Return {| db_path := p; pending := None |})
    | Return (Some _) => (fs, Return {| db_path := p; pending := None |})
    end.

(** The database a statement of [c] works on. *)
Definition current_db (c : connection) (fs : fsys) : outcome database :=
  match pending c with
  | Some d => Return d
  | None =>
      match fs !! db_path c with
      | Some (Sqlite d) => Return d
      | Some (File EmptyString) => Return empty_db
      | Some (File _) => Raise DatabaseError
      | _ => Raise OperationalError
      end
  end.

(** [CREATE TABLE IF NOT EXISTS votes(number INT PRIMARY KEY, user_id INT,
    time TEXT, site TEXT)]; outside a transaction the statement commits by
    itself. *)
Definition execute_create_votes (c : connection) : io fsys connection :=
  fun fs =>
    match current_db c fs with
    | Raise e => (fs, Raise e)
    | Return d =>
        match votes d, pending c with
        | Some _, _ => (fs, Return c)
        | None, Some _ =>
            (fs, Return {| db_path := db_path c; pending := Some {| votes := Some [] |} |})
        | None, None => (<[db_path c := Sqlite {| votes := Some [] |}]> fs, Return c)
        end
    end.

(** What SQLite stores as an INTEGER. *)
Definition fits_int64 (z : Z) : bool := (- 2 ^ 63 <=? z) && (z <? 2 ^ 63).

(** [INSERT INTO votes VALUES (?, ?, ?, ?)]; opens a transaction. *)
Definition execute_insert_vote (r : row) (c : connection) : io fsys connection :=
  fun fs =>
    if negb (fits_int64 (r_number r) && fits_int64 (r_user_id r))
    then (fs, Raise OverflowError)
    else
      match current_db c fs with
      | Raise e => (fs, Raise e)
      | Return d =>
          match votes d with
          | None => (fs, Raise OperationalError)
          | Some rows =>
              if existsb (fun x => r_number x =? r_number r) rows
              then (fs, Raise IntegrityError)
              else (fs, Return {| db_path := db_path c;
                                  pending := Some {| votes := Some (rows ++ [r])%list |} |})
          end
      end.

(** [conn.commit()] *)
Definition commit (c : connection) : io fsys connection :=
  fun fs =>
    match pending c with
    | Some d => (<[db_path c := Sqlite d]> fs, Return {| db_path := db_path c; pending := None |})
    | None => (fs, Return c)
    end.

(** [SELECT * FROM votes WHERE number = ?], then [cursor.fetchone()] *)
Definition select_vote (n : Z) (c : connection) : io fsys (option row) :=
  fun fs =>
    if negb (fits_int64 n) then (fs, Raise OverflowError)
    else
      match current_db c fs with
      | Raise e => (fs, Raise e)
      | Return d =>
          match votes d with
          | None => (fs, Raise OperationalError)
          | Some rows => (fs, Return (List.find (fun x => r_number x =? n) rows))
          end
      end.

(** [SELECT * FROM votes], all rows of the cursor *)
Definition select_votes (c : connection) : io fsys (list row) :=
  fun fs =>
    match current_db c fs with
    | Raise e => (fs, Raise e)
    | Return d =>
        match votes d with
        | None => (fs, Raise OperationalError)
        | Some rows => (fs, Return rows)
        end
    end.

(** ** The state of a call: the file system and the object [self] *)

Record world (Self : Type) : Type := { files : fsys; self : Self }.
Arguments files {Self} w.
Arguments self {Self} w.
Arguments Build_world {Self} files self.

Definition on_files {Self A} (m : io fsys A) : io (world Self) A :=
  fun w =>
    match m (files w) with
    | (fs', o) => ({| files := fs'; self := self w |}, o)
    end.

Definition get_self {Self} : io (world Self) Self :=
  fun w => (w, Return (self w)).

Definition modify_self {Self} (f : Self -> Self) : io (world Self) unit :=
  fun w => ({| files := files w; self := f (self w) |}, Return tt).

(** [async with aiofiles.open(p, mode) as f: body]: the file is closed on
    both ways out of [body]. *)
Definition with_open {Self A} (p : string) (m : mode)
    (body : handle -> io (world Self) A) : io (world Self) A :=
  (f <- on_files (aio_open p m) ;;
   fun w =>
     match body f w with
     | (w', o) => (fst (on_files (aio_close f) w'), o)
     end)%io.

(** ** cache.py *)

Definition mkdir (name : string) : io fsys unit :=
  (* _log.info *)
  fun fs =>
    match os_mkdir name fs with
    | (fs', Raise _) => (fs', Return tt)   (* except Exception: _log.error *)
    | (fs', Return _) => (fs', Return tt)  (* else: _log.info *)
    end.

Definition mkfile (name : string) : io fsys unit :=
  (* _log.info *)
  fun fs =>
    match aio_open name W fs with
    | (fs', Raise _) => (fs', Return tt)   (* except Exception: _log.error *)
    | (fs', Return file) => aio_close file fs'  (* else: close, _log.info *)
    end.

Module CachedVote.
(** A frozen dataclass; its fields are not checked against their
    annotations, so a field read from JSON holds whatever value was
    stored. *)
Record t : Type := {
  number : pyval;
  id : pyval;
  time : datetime;
  site : pyval
}.
End CachedVote.

Module BaseVotePayload.
(** What the cache reads of a payload ([raw] goes to the logger only). *)
Record t : Type := {
  user_id : Z;
  time : datetime;
  SITE : string
}.
End BaseVotePayload.

(** The attribute [number] every database object has. *)
Class HasNumber (Self : Type) : Type := {
  get_number : Self -> Z;
  set_number : Z -> Self -> Self
}.

Definition root : string := "toppy_vote_cache".
Definition number_txt : string := "toppy_vote_cache/number.txt".
Definition votes_db : string := "toppy_vote_cache/votes.db".
Definition votes_json : string := "toppy_vote_cache/votes.json".

Module AbstractDatabase.
Section Methods.
Context {Self : Type} `{HasNumber Self}.

(** The first two statements of [connect]: the directory and the counter
    file are made when they are missing. *)
Definition connect_root : io (world Self) unit :=
  (has_root <- on_files (path_exists root) ;;
   (if negb has_root then on_files (mkdir root) else ret tt) ;;
   has_number <- on_files (path_exists number_txt) ;;
   (if negb has_number then on_files (mkfile number_txt) else ret tt))%io.

Definition connect : io (world Self) unit :=
  (connect_root ;;
   with_open number_txt R (fun f =>
     content <- on_files (aio_read f) ;;
     n <- lift (int_of_str content) ;;
     modify_self (set_number n)))%io.

Definition insert (payload : BaseVotePayload.t) : io (world Self) unit :=
  (modify_self (fun s => set_number (get_number s + 1) s) ;;
   (* [aiofiles.open] is given no mode here: it opens for reading *)
   with_open number_txt R (fun f =>
     s <- get_self ;;
     on_files (aio_write f (str_of_int (get_number s)))) ;;
   (* _log.debug *)
   ret tt)%io.
End Methods.
End AbstractDatabase.

Module SQLiteDatabase.
(** [conn] is [None] for the placeholder [MISSING] that [__init__] stores;
    using it as a connection raises [AttributeError]. *)
Record t : Type := { conn : option connection; number : Z }.

#[global] Instance has_number : HasNumber t := {|
  get_number := number;
  set_number n s := {| conn := conn s; number := n |}
|}.

Definition __init__ : t := {| conn := None; number := 0 |}.

Definition set_conn (c : connection) : io (world t) unit :=
  modify_self (fun s => {| conn := Some c; number := number s |}).

(** A call that changes the state of the connection object. *)
Definition on_conn (op : connection -> io fsys connection) : io (world t) unit :=
  (s <- get_self ;;
   match conn s with
   | None => throw AttributeError
   | Some c => c' <- on_files (op c) ;; set_conn c'
   end)%io.

(** A query through the connection. *)
Definition query {A} (op : connection -> io fsys A) : io (world t) A :=
  (s <- get_self ;;
   match conn s with
   | None => throw AttributeError
   | Some c => on_files (op c)
   end)%io.

Definition connect : io (world t) unit :=
  (AbstractDatabase.connect ;;
   has_db <- on_files (path_exists votes_db) ;;
   (if negb has_db then on_files (mkfile votes_db) else ret tt) ;;
   c <- on_files (sqlite_connect votes_db) ;;
   set_conn c ;;
   on_conn execute_create_votes ;;
   on_conn commit)%io.

Definition insert (payload : BaseVotePayload.t) : io (world t) unit :=
  (s <- get_self ;;
   on_conn (execute_insert_vote
              {| r_number := number s;
                 r_user_id := BaseVotePayload.user_id payload;
                 r_time := isoformat (BaseVotePayload.time payload);
                 r_site := BaseVotePayload.SITE payload |}) ;;
   on_conn commit ;;
   AbstractDatabase.insert payload)%io.

Definition vote_of_row (r : row) : outcome CachedVote.t :=
  (time <- fromisoformat (r_time r) ;;
   Return {| CachedVote.number := PInt (r_number r);
             CachedVote.id := PInt (r_user_id r);
             CachedVote.time := time;
             CachedVote.site := PStr (r_site r) |})%outcome.

Definition fetchone (number : Z) : io (world t) (option CachedVote.t) :=
  (data <- query (select_vote number) ;;
   match data with
   | None => ret None
   | Some r => v <- lift (vote_of_row r) ;; ret (Some v)
   end)%io.

Definition fetchmany : io (world t) (list CachedVote.t) :=
  (rows <- query select_votes ;;
   lift (omapM vote_of_row rows))%io.
End SQLiteDatabase.

Module JSONDatabase.
Record t : Type := { number : Z }.

#[global] Instance has_number : HasNumber t := {|
  get_number := number;
  set_number n _ := {| number := n |}
|}.

Definition __init__ : t := {| number := 0 |}.

Definition connect : io (world t) unit :=
  (AbstractDatabase.connect ;;
   has_votes <- on_files (path_exists votes_json) ;;
   if negb has_votes
   then with_open votes_json W (fun f =>
          on_files (aio_write f (json_dumps None (PList []))))
   else ret tt)%io.

Definition read_votes : io (world t) string :=
  with_open votes_json R (fun f => on_files (aio_read f)).

Definition insert (payload : BaseVotePayload.t) : io (world t) unit :=
  (text <- read_votes ;;
   data <- lift (json_loads text) ;;
   s <- get_self ;;
   data <- lift (append data
                   (PList [PInt (number s);
                           PInt (BaseVotePayload.user_id payload);
                           PStr (isoformat (BaseVotePayload.time payload));
                           PStr (BaseVotePayload.SITE payload)])) ;;
   with_open votes_json W (fun f =>
     (* the value dumped is [text], what was read, and not [data] *)
     let dumped := json_dumps (Some 4%nat) (PStr text) in
     on_files (aio_write f dumped)) ;;
   AbstractDatabase.insert payload)%io.

(** [CachedVote(d[0], d[1], datetime.datetime.fromisoformat(d[2]), d[3])] *)
Definition vote_of (d : pyval) : outcome CachedVote.t :=
  (d0 <- getitem d 0 ;;
   d1 <- getitem d 1 ;;
   d2 <- getitem d 2 ;;
   time <- match d2 with
           | PStr s => fromisoformat s
           | _ => Raise TypeError
           end ;;
   d3 <- getitem d 3 ;;
   Return {| CachedVote.number := d0;
             CachedVote.id := d1;
             CachedVote.time := time;
             CachedVote.site := d3 |})%outcome.

Definition fetchone (number : Z) : io (world t) (option CachedVote.t) :=
  (text <- read_votes ;;
   loaded <- lift (json_loads text) ;;
   data <- lift (getitem loaded number) ;;
   v <- lift (vote_of data) ;;
   ret (Some v))%io.

Definition fetchmany : io (world t) (list CachedVote.t) :=
  (text <- read_votes ;;
   data <- lift (json_loads text) ;;
   items <- lift (iterate data) ;;
   lift (omapM vote_of items))%io.
End JSONDatabase.

(** * Closed forms and sample states

    The definitions below serve the proofs: what [connect] computes, written
    without the monad, and the concrete states the examples run on. *)

(** [stat] of a path directly under [toppy_vote_cache]. *)
Definition under_root {A} (fs : fsys) (a : A) : outcome A :=
  match fs !! root with
  | Some Dir => Return a
  | Some _ => Raise NotADirectoryError
  | None => Raise FileNotFoundError
  end.

(** The files after the first two statements of [connect]. *)
Definition rooted (fs : fsys) : fsys :=
  let fs1 := match fs !! root with
             | None => <[root := Dir]> fs
             | Some _ => fs
             end in
  match fs1 !! root, fs1 !! number_txt with
  | Some Dir, None => <[number_txt := File ""]> fs1
  | _, _ => fs1
  end.

(** What the rest of [AbstractDatabase.connect] reads from the counter file. *)
Definition read_number (fs : fsys) : outcome Z :=
  match fs !! root with
  | Some Dir =>
      match fs !! number_txt with
      | Some (File s) => int_of_str s
      | Some Dir => Raise IsADirectoryError
      | Some (Sqlite _) => Raise UnicodeDecodeError
      | None => Raise FileNotFoundError
      end
  | Some _ => Raise NotADirectoryError
  | None => Raise FileNotFoundError
  end.

(** The files after the last statement of [JSONDatabase.connect]. *)
Definition with_votes_json (fs : fsys) : fsys :=
  match fs !! votes_json with
  | None => <[votes_json := File "[]"]> fs
  | Some _ => fs
  end.

Definition fresh_conn : connection := {| db_path := votes_db; pending := None |}.

Definition created : node := Sqlite {| votes := Some [] |}.

(** [SQLiteDatabase.connect] after [super().connect()] returned with the
    counter [n]; [old] is the connection [self] held before. *)
Definition sqlite_opened (fs : fsys) (n : Z) (old : option connection)
  : world SQLiteDatabase.t * outcome unit :=
  let connected fs' :=
    {| files := fs';
       self := {| SQLiteDatabase.conn := Some fresh_conn; SQLiteDatabase.number := n |} |} in
  match fs !! votes_db with
  | Some Dir =>
      ({| files := fs;
          self := {| SQLiteDatabase.conn := old; SQLiteDatabase.number := n |} |},
       Raise OperationalError)
  | Some (Sqlite {| votes := Some _ |}) => (connected fs, Return tt)
  | Some (File (String _ _)) => (connected fs, Raise DatabaseError)
  | Some (Sqlite {| votes := None |}) | Some (File EmptyString) | None =>
      (connected (<[votes_db := created]> fs), Return tt)
  end.

(** The connection of [self], if it has one, is to [votes.db]; [connect]
    stores no other. *)
Definition conn_to_votes_db (s : SQLiteDatabase.t) : Prop :=
  match SQLiteDatabase.conn s with
  | Some c => db_path c = votes_db
  | None => True
  end.

(** A root as a finished set-up would leave it: the directory and a counter
    file that holds 0. *)
Definition seeded : fsys := <[number_txt := File "0"]> (<[root := Dir]> ∅).

(** 2024-01-01T00:00:00+00:00 and 2024-01-02T00:00:00+00:00 *)
Definition new_year : datetime :=
  {| year := 2024; month := 1; day := 1; hour := 0; minute := 0; second := 0;
     microsecond := 0; utcoffset := Some 0 |}.

Definition next_day : datetime :=
  {| year := 2024; month := 1; day := 2; hour := 0; minute := 0; second := 0;
     microsecond := 0; utcoffset := Some 0 |}.

Definition vote_42 : BaseVotePayload.t :=
  {| BaseVotePayload.user_id := 42;
     BaseVotePayload.time := new_year;
     BaseVotePayload.SITE := "example" |}.

(** Each backend connected on [seeded]. *)
Definition json_connected : world JSONDatabase.t :=
  fst (JSONDatabase.connect {| files := seeded; self := JSONDatabase.__init__ |}).

Definition sqlite_connected : world SQLiteDatabase.t :=
  fst (SQLiteDatabase.connect {| files := seeded; self := SQLiteDatabase.__init__ |}).

(** Two records with the sequence numbers 0 and 1, as rows and as the JSON
    document that holds the same tuples. *)
Definition two_rows : list row :=
  [ {| r_number := 0; r_user_id := 1; r_time := isoformat new_year; r_site := "a" |};
    {| r_number := 1; r_user_id := 2; r_time := isoformat next_day; r_site := "b" |} ].

Definition tuple_of_row (r : row) : pyval :=
  PList [PInt (r_number r); PInt (r_user_id r); PStr (r_time r); PStr (r_site r)].

Definition json_two_records : world JSONDatabase.t :=
  {| files := <[votes_json := File (json_dumps None (PList (map tuple_of_row two_rows)))]>
                (<[number_txt := File "2"]> seeded);
     self := {| JSONDatabase.number := 2 |} |}.

Definition sqlite_two_records : world SQLiteDatabase.t :=
  {| files := <[votes_db := Sqlite {| votes := Some two_rows |}]>
                (<[number_txt := File "2"]> seeded);
     self := {| SQLiteDatabase.conn := Some fresh_conn; SQLiteDatabase.number := 2 |} |}.

Definition record_1 : CachedVote.t :=
  {| CachedVote.number := PInt 1; CachedVote.id := PInt 2;
     CachedVote.time := next_day; CachedVote.site := PStr "b" |}.

(** The row [SQLiteDatabase.insert] makes of a payload when the counter is
    [n]. *)
Definition row_of (n : Z) (payload : BaseVotePayload.t) : row :=
  {| r_number := n;
     r_user_id := BaseVotePayload.user_id payload;
     r_time := isoformat (BaseVotePayload.time payload);
     r_site := BaseVotePayload.SITE payload |}.

(** The rows of the payloads [ps], numbered from [n]. *)
Fixpoint rows_from (n : Z) (ps : list BaseVotePayload.t) : list row :=
  match ps with
  | [] => []
  | p :: ps' => row_of n p :: rows_from (n + 1) ps'
  end.

(** One [insert] after the other, by a caller that goes on after each
    exception. *)
Fixpoint insert_each (ps : list BaseVotePayload.t) (w : world SQLiteDatabase.t)
  : world SQLiteDatabase.t :=
  match ps with
  | [] => w
  | p :: ps' => insert_each ps' (fst (SQLiteDatabase.insert p w))
  end.

(** The records a reader expects of the payloads [ps], numbered from [n]. *)
Fixpoint votes_from (n : Z) (ps : list BaseVotePayload.t) : list CachedVote.t :=
  match ps with
  | [] => []
  | p :: ps' =>
      {| CachedVote.number := PInt n;
         CachedVote.id := PInt (BaseVotePayload.user_id p);
         CachedVote.time := BaseVotePayload.time p;
         CachedVote.site := PStr (BaseVotePayload.SITE p) |}
      :: votes_from (n + 1) ps'
  end.

Definition vote_7 : BaseVotePayload.t :=
  {| BaseVotePayload.user_id := 7;
     BaseVotePayload.time := next_day;
     BaseVotePayload.SITE := "b" |}.




(** * Properties *)

(** ** The paths of the module *)

Lemma stat_root (fs : fsys) : stat fs root = Return (fs !! root).
Proof. reflexivity. Qed.

Lemma stat_number_txt (fs : fsys) :
  stat fs number_txt = under_root fs (fs !! number_txt).
Proof. reflexivity. Qed.

Lemma stat_votes_db (fs : fsys) :
  stat fs votes_db = under_root fs (fs !! votes_db).
Proof. reflexivity. Qed.

Lemma stat_votes_json (fs : fsys) :
  stat fs votes_json = under_root fs (fs !! votes_json).
Proof. reflexivity. Qed.

Lemma paths_distinct :
  root ≠ number_txt /\ root ≠ votes_db /\ root ≠ votes_json /\
  number_txt ≠ votes_db /\ number_txt ≠ votes_json /\ votes_db ≠ votes_json.
Proof. repeat split; discriminate. Qed.

Lemma int_of_empty : int_of_str "" = Raise ValueError.
Proof. reflexivity. Qed.

#[local] Opaque root number_txt votes_db votes_json.

Ltac paths :=
  let H := fresh in
  pose proof paths_distinct as H; intuition congruence.

Ltac io_unfold :=
  unfold AbstractDatabase.connect, AbstractDatabase.connect_root,
    AbstractDatabase.insert, with_open, bind, on_files, get_self, modify_self,
    path_exists, mkdir, mkfile, os_mkdir, aio_open, aio_read, aio_write,
    aio_close, ret, throw, lift in *.

Ltac norm1 :=
  first
    [ rewrite stat_root | rewrite stat_number_txt
    | rewrite stat_votes_db | rewrite stat_votes_json
    | rewrite lookup_insert_eq
    | rewrite lookup_insert_ne by paths
    | match goal with
      | H : ?m !! ?k = _ |- context [?m !! ?k] => rewrite H
      end
    | progress unfold under_root
    | progress cbn ].

Ltac norm := repeat norm1.

(** ** What [AbstractDatabase.connect] does, in closed form *)

Section Abstract.
Context {Self : Type} `{HasNumber Self}.

Lemma connect_root_rooted (w : world Self) :
  AbstractDatabase.connect_root w
  = ({| files := rooted (files w); self := self w |}, Return tt).
Proof.
  destruct w as [fs s]. io_unfold. unfold rooted.
  destruct (fs !! root) as [[|c|d]|] eqn:Er;
    destruct (fs !! number_txt) as [[|c'|d']|] eqn:En; norm; reflexivity.
Qed.

Lemma connect_closed_form (w : world Self) :
  AbstractDatabase.connect w
  = match read_number (rooted (files w)) with
    | Return n =>
        ({| files := rooted (files w); self := set_number n (self w) |}, Return tt)
    | Raise e => ({| files := rooted (files w); self := self w |}, Raise e)
    end.
Proof.
  unfold AbstractDatabase.connect.
  unfold bind at 1. rewrite connect_root_rooted.
  destruct w as [fs s]. cbn [files self].
  generalize (rooted fs) as fs'. intros fs'.
  io_unfold. unfold read_number.
  destruct (fs' !! root) as [[|c|d]|] eqn:Er;
    destruct (fs' !! number_txt) as [[|c'|d']|] eqn:En; norm; try reflexivity.
  destruct (int_of_str c'); reflexivity.
Qed.
End Abstract.

Lemma rooted_lookup_root (fs : fsys) :
  rooted fs !! root = match fs !! root with Some n => Some n | None => Some Dir end.
Proof.
  unfold rooted.
  destruct (fs !! root) as [[|c|d]|] eqn:Er;
    destruct (fs !! number_txt) as [[|c'|d']|] eqn:En; norm; reflexivity.
Qed.

Lemma rooted_fixed (fs : fsys) :
  is_Some (fs !! root) ->
  (fs !! root = Some Dir -> is_Some (fs !! number_txt)) ->
  rooted fs = fs.
Proof.
  intros [r Hr] Hn. unfold rooted.
  destruct r; norm; try reflexivity.
  destruct (Hn Hr) as [x Hx]. norm. reflexivity.
Qed.

Lemma rooted_idem (fs : fsys) : rooted (rooted fs) = rooted fs.
Proof.
  apply rooted_fixed.
  - rewrite rooted_lookup_root. destruct (fs !! root); eauto.
  - unfold rooted.
    destruct (fs !! root) as [[|c|d]|] eqn:Er;
      destruct (fs !! number_txt) as [[|c'|d']|] eqn:En; norm; eauto; congruence.
Qed.

Lemma insert_keeps (fs : fsys) (p q : string) (n x : node) :
  fs !! q = None -> fs !! p = Some n -> <[q := x]> fs !! p = Some n.
Proof.
  intros Hq Hp. rewrite lookup_insert_ne; [assumption|]. congruence.
Qed.

(** Nothing that exists is changed by the first two statements. *)
Lemma rooted_keeps (fs : fsys) (p : string) (n : node) :
  fs !! p = Some n -> rooted fs !! p = Some n.
Proof.
  intros Hp. unfold rooted.
  destruct (fs !! root) as [[|c|d]|] eqn:Er;
    destruct (fs !! number_txt) as [[|c'|d']|] eqn:En; cbn;
    rewrite ?lookup_insert_eq, ?Er, ?En; cbn;
    rewrite ?(lookup_insert_ne fs root number_txt) by paths; rewrite ?En;
    repeat (apply insert_keeps; [norm; solve [assumption | reflexivity] |]);
    assumption.
Qed.

Lemma read_number_Return (fs : fsys) (n : Z) :
  read_number fs = Return n ->
  fs !! root = Some Dir /\
  exists s, fs !! number_txt = Some (File s) /\ int_of_str s = Return n.
Proof.
  unfold read_number.
  destruct (fs !! root) as [[|c|d]|]; try discriminate.
  destruct (fs !! number_txt) as [[|c'|d']|]; try discriminate.
  eauto.
Qed.




(** ** [JSONDatabase.connect] in closed form *)

Lemma json_connect_closed_form (w : world JSONDatabase.t) :
  JSONDatabase.connect w
  = match read_number (rooted (files w)) with
    | Return n =>
        ({| files := with_votes_json (rooted (files w));
            self := {| JSONDatabase.number := n |} |}, Return tt)
    | Raise e => ({| files := rooted (files w); self := self w |}, Raise e)
    end.
Proof.
  unfold JSONDatabase.connect. unfold bind at 1.
  rewrite connect_closed_form.
  destruct w as [fs s]. cbn [files self].
  destruct (read_number (rooted fs)) as [n|e] eqn:Hread; [|reflexivity].
  destruct (read_number_Return _ _ Hread) as (Hroot & c & Hc & _).
  revert Hroot Hc. generalize (rooted fs) as fs'. intros fs' Hroot Hc.
  io_unfold. unfold with_votes_json.
  destruct (fs' !! votes_json) as [x|] eqn:Ej; norm;
    rewrite ?insert_insert_eq; reflexivity.
Qed.

(** ** [SQLiteDatabase.connect] in closed form *)

Lemma sqlite_connect_closed_form (w : world SQLiteDatabase.t) :
  SQLiteDatabase.connect w
  = match read_number (rooted (files w)) with
    | Return n => sqlite_opened (rooted (files w)) n (SQLiteDatabase.conn (self w))
    | Raise e => ({| files := rooted (files w); self := self w |}, Raise e)
    end.
Proof.
  unfold SQLiteDatabase.connect. unfold bind at 1.
  rewrite connect_closed_form.
  destruct w as [fs [old k]]. cbn [files self SQLiteDatabase.conn].
  destruct (read_number (rooted fs)) as [n|e] eqn:Hread; [|reflexivity].
  destruct (read_number_Return _ _ Hread) as (Hroot & c & Hc & _).
  revert Hroot Hc. generalize (rooted fs) as fs'. intros fs' Hroot Hc.
  io_unfold.
  unfold sqlite_opened, SQLiteDatabase.on_conn, SQLiteDatabase.set_conn,
    sqlite_connect, execute_create_votes, commit, current_db, created, fresh_conn.
  io_unfold.
  destruct (fs' !! votes_db) as [[|[|a t]|[[rows|]]]|] eqn:Ed; norm;
    rewrite ?insert_insert_eq; reflexivity.
Qed.






(** ** C10: the first [connect] on a fresh root *)

(** C10.  On a root where neither the directory [toppy_vote_cache] nor
    [number.txt] exists, [connect] of either backend makes the directory,
    makes [number.txt] as an empty file, and raises [ValueError], the error
    of [int] on the empty string; [self], and with it the counter in
    memory, is left as it was. *)
Theorem first_connect_raises (fs : fsys) :
  fs !! root = None ->
  fs !! number_txt = None ->
  let fs' := <[number_txt := File ""]> (<[root := Dir]> fs) in
  int_of_str "" = Raise ValueError
  /\ (forall s : JSONDatabase.t,
        JSONDatabase.connect {| files := fs; self := s |}
        = ({| files := fs'; self := s |}, Raise ValueError))
  /\ (forall s : SQLiteDatabase.t,
        SQLiteDatabase.connect {| files := fs; self := s |}
        = ({| files := fs'; self := s |}, Raise ValueError)).
Proof.
  intros Hr Hn fs'.
  assert (Hrooted : rooted fs = fs').
  { unfold rooted. norm. reflexivity. }
  assert (Hread : read_number fs' = Raise ValueError).
  { unfold read_number, fs'. norm. reflexivity. }
  split; [reflexivity|]. split; intros s.
  - rewrite json_connect_closed_form. cbn [files self].
    rewrite Hrooted, Hread. reflexivity.
  - rewrite sqlite_connect_closed_form. cbn [files self].
    rewrite Hrooted, Hread. reflexivity.
Qed.

Lemma first_connect_raises_witness :
  JSONDatabase.connect {| files := ∅; self := JSONDatabase.__init__ |}
  = ({| files := <[number_txt := File ""]> (<[root := Dir]> ∅);
        self := JSONDatabase.__init__ |}, Raise ValueError)
  /\ SQLiteDatabase.connect {| files := ∅; self := SQLiteDatabase.__init__ |}
     = ({| files := <[number_txt := File ""]> (<[root := Dir]> ∅);
           self := SQLiteDatabase.__init__ |}, Raise ValueError).
Proof.
  destruct (first_connect_raises ∅) as (_ & Hj & Hs).
  - reflexivity.
  - reflexivity.
  - split; [apply Hj | apply Hs].
Defined.

Ltac db_unfold :=
  unfold SQLiteDatabase.fetchone, SQLiteDatabase.fetchmany, SQLiteDatabase.insert,
    SQLiteDatabase.query, SQLiteDatabase.on_conn, SQLiteDatabase.set_conn,
    JSONDatabase.fetchone, JSONDatabase.fetchmany, JSONDatabase.insert,
    JSONDatabase.read_votes,
    select_vote, select_votes, execute_insert_vote, commit in *.

Ltac split_match :=
  match goal with
  | |- context [match ?x with _ => _ end] =>
      lazymatch x with
      | context [match _ with _ => _ end] => fail
      | _ => destruct x eqn:?
      end
  end.

Lemma json_fetchone_reads (w : world JSONDatabase.t) (k : Z) :
  fst (JSONDatabase.fetchone k w) = w.
Proof.
  destruct w as [fs s]. db_unfold. io_unfold. norm.
  repeat (split_match; norm); reflexivity.
Qed.

Lemma json_fetchmany_reads (w : world JSONDatabase.t) :
  fst (JSONDatabase.fetchmany w) = w.
Proof.
  destruct w as [fs s]. db_unfold. io_unfold. norm.
  repeat (split_match; norm); reflexivity.
Qed.

Lemma sqlite_fetchone_reads (w : world SQLiteDatabase.t) (k : Z) :
  fst (SQLiteDatabase.fetchone k w) = w.
Proof.
  destruct w as [fs [c n]]. db_unfold. io_unfold. norm.
  repeat (split_match; norm); reflexivity.
Qed.

Lemma sqlite_fetchmany_reads (w : world SQLiteDatabase.t) :
  fst (SQLiteDatabase.fetchmany w) = w.
Proof.
  destruct w as [fs [c n]]. db_unfold. io_unfold. norm.
  repeat (split_match; norm); reflexivity.
Qed.

Lemma json_insert_keeps_counter (w : world JSONDatabase.t) (payload : BaseVotePayload.t) :
  files (fst (JSONDatabase.insert payload w)) !! number_txt = files w !! number_txt.
Proof.
  destruct w as [fs s]. db_unfold. io_unfold. norm.
  repeat (split_match; norm); reflexivity.
Qed.

Lemma sqlite_insert_keeps_counter (w : world SQLiteDatabase.t) (payload : BaseVotePayload.t) :
  conn_to_votes_db (self w) ->
  files (fst (SQLiteDatabase.insert payload w)) !! number_txt = files w !! number_txt.
Proof.
  destruct w as [fs [[[path pend]|] n]]; unfold conn_to_votes_db; cbn; intros Hc.
  - subst path. db_unfold. io_unfold. norm.
    repeat (split_match; norm); reflexivity.
  - reflexivity.
Qed.

Lemma json_connect_raise_keeps (w : world JSONDatabase.t) (p : string) (x : node) :
  raised (snd (JSONDatabase.connect w)) = true ->
  files w !! p = Some x ->
  files (fst (JSONDatabase.connect w)) !! p = Some x.
Proof.
  rewrite json_connect_closed_form.
  destruct (read_number (rooted (files w))); cbn; [discriminate|].
  intros _. apply rooted_keeps.
Qed.

Lemma sqlite_connect_raise_keeps (w : world SQLiteDatabase.t) (p : string) (x : node) :
  raised (snd (SQLiteDatabase.connect w)) = true ->
  files w !! p = Some x ->
  files (fst (SQLiteDatabase.connect w)) !! p = Some x.
Proof.
  rewrite sqlite_connect_closed_form.
  destruct (read_number (rooted (files w))); cbn.
  - unfold sqlite_opened.
    destruct (rooted (files w) !! votes_db) as [[|[|ch tl]|[[rows|]]]|];
      cbn; try discriminate; intros _; apply rooted_keeps.
  - intros _. apply rooted_keeps.
Qed.

(** ** C7: what a failing operation leaves behind *)

(** C7, the claim as stated fails.  On a root with the counter file at 0
    and an empty table, [SQLiteDatabase.insert] raises, and the table holds
    the new row all the same. *)
Lemma insert_raises_after_the_write :
  let w := sqlite_connected in
  let w' := fst (SQLiteDatabase.insert vote_42 w) in
  snd (SQLiteDatabase.insert vote_42 w) = Raise UnsupportedOperation
  /\ files w !! votes_db = Some (Sqlite {| votes := Some [] |})
  /\ files w' !! votes_db
     = Some (Sqlite {| votes := Some [ {| r_number := 0; r_user_id := 42;
                                          r_time := "2024-01-01T00:00:00+00:00";
                                          r_site := "example" |} ] |})
  /\ files w' <> files w.
Proof.
  cbv zeta. split; [vm_compute; reflexivity|].
  split; [vm_compute; reflexivity|].
  split; [vm_compute; reflexivity|].
  intros Heq. apply (f_equal (fun fs : fsys => fs !! votes_db)) in Heq.
  vm_compute in Heq. discriminate.
Qed.

(** C7, amended.  [fetchone] and [fetchmany] leave the files as they were
    when they raise; an [insert] that raises leaves the counter file as it
    was; a [connect] that raises leaves every file and directory that
    existed before as it was.  (A raising [insert] may have written the
    records, and a raising [connect] may have made the directory and an
    empty counter file.) *)
Theorem failure_leaves_persisted_state
    (wj : world JSONDatabase.t) (ws : world SQLiteDatabase.t)
    (k : Z) (payload : BaseVotePayload.t) :
  conn_to_votes_db (self ws) ->
  (raised (snd (JSONDatabase.fetchone k wj)) = true ->
     files (fst (JSONDatabase.fetchone k wj)) = files wj)
  /\ (raised (snd (JSONDatabase.fetchmany wj)) = true ->
        files (fst (JSONDatabase.fetchmany wj)) = files wj)
  /\ (raised (snd (SQLiteDatabase.fetchone k ws)) = true ->
        files (fst (SQLiteDatabase.fetchone k ws)) = files ws)
  /\ (raised (snd (SQLiteDatabase.fetchmany ws)) = true ->
        files (fst (SQLiteDatabase.fetchmany ws)) = files ws)
  /\ (raised (snd (JSONDatabase.insert payload wj)) = true ->
        files (fst (JSONDatabase.insert payload wj)) !! number_txt
        = files wj !! number_txt)
  /\ (raised (snd (SQLiteDatabase.insert payload ws)) = true ->
        files (fst (SQLiteDatabase.insert payload ws)) !! number_txt
        = files ws !! number_txt)
  /\ (raised (snd (JSONDatabase.connect wj)) = true ->
        forall p x, files wj !! p = Some x ->
                    files (fst (JSONDatabase.connect wj)) !! p = Some x)
  /\ (raised (snd (SQLiteDatabase.connect ws)) = true ->
        forall p x, files ws !! p = Some x ->
                    files (fst (SQLiteDatabase.connect ws)) !! p = Some x).
Proof.
  intros Hconn. repeat split; intros Hraised.
  - rewrite json_fetchone_reads. reflexivity.
  - rewrite json_fetchmany_reads. reflexivity.
  - rewrite sqlite_fetchone_reads. reflexivity.
  - rewrite sqlite_fetchmany_reads. reflexivity.
  - apply json_insert_keeps_counter.
  - apply sqlite_insert_keeps_counter. assumption.
  - intros p x. apply json_connect_raise_keeps. assumption.
  - intros p x. apply sqlite_connect_raise_keeps. assumption.
Qed.

(** The amended statement at work: a fetch past the end of the JSON
    document, an insert into the connected SQLite store, and two connects
    to a root that has only the directory. *)
Lemma failure_leaves_persisted_state_witness :
  let wj := json_two_records in
  let ws := sqlite_connected in
  let bare : fsys := <[root := Dir]> ∅ in
  snd (JSONDatabase.fetchone 2 wj) = Raise IndexError
  /\ files (fst (JSONDatabase.fetchone 2 wj)) = files wj
  /\ snd (SQLiteDatabase.insert vote_42 ws) = Raise UnsupportedOperation
  /\ files (fst (SQLiteDatabase.insert vote_42 ws)) !! number_txt
     = files ws !! number_txt
  /\ snd (JSONDatabase.connect {| files := bare; self := JSONDatabase.__init__ |})
     = Raise ValueError
  /\ files (fst (JSONDatabase.connect {| files := bare; self := JSONDatabase.__init__ |}))
       !! root = Some Dir.
Proof.
  cbv zeta.
  destruct (failure_leaves_persisted_state json_two_records sqlite_connected 2 vote_42)
    as (Hfetch & _ & _ & _ & _ & Hinsert & _ & _).
  { vm_compute. reflexivity. }
  destruct (failure_leaves_persisted_state
              {| files := <[root := Dir]> ∅; self := JSONDatabase.__init__ |}
              sqlite_connected 0 vote_42)
    as (_ & _ & _ & _ & _ & _ & Hconnect & _).
  { vm_compute. reflexivity. }
  split; [vm_compute; reflexivity|].
  split; [apply Hfetch; vm_compute; reflexivity|].
  split; [vm_compute; reflexivity|].
  split; [apply Hinsert; vm_compute; reflexivity|].
  split; [vm_compute; reflexivity|].
  apply Hconnect; [vm_compute; reflexivity|].
  cbn [files]. apply lookup_insert_eq.
Defined.

(** ** C9: [connect] twice *)





(** ** [insert] never returns *)

Section AbstractInsert.
Context {Self : Type} `{HasNumber Self}.

(** [number.txt] is opened for reading, so the write of the new counter
    raises (or the file could not be opened): the call never returns, and it
    changes no file. *)
Lemma abstract_insert_raises (w : world Self) (payload : BaseVotePayload.t) :
  raised (snd (AbstractDatabase.insert payload w)) = true
  /\ files (fst (AbstractDatabase.insert payload w)) = files w
  /\ self (fst (AbstractDatabase.insert payload w))
     = set_number (get_number (self w) + 1) (self w).
Proof.
  destruct w as [fs s]. io_unfold. norm.
  repeat (split_match; norm); repeat split; reflexivity.
Qed.
End AbstractInsert.

Lemma raised_bind {W0 A B} (m : io W0 A) (k : A -> io W0 B) (w : W0) :
  (forall a w', raised (snd (k a w')) = true) ->
  raised (snd (bind m k w)) = true.
Proof.
  intros Hk. unfold bind. destruct (m w) as [w' [a|e]]; [apply Hk | reflexivity].
Qed.

Lemma json_insert_raises (w : world JSONDatabase.t) (payload : BaseVotePayload.t) :
  raised (snd (JSONDatabase.insert payload w)) = true.
Proof.
  unfold JSONDatabase.insert.
  repeat first [ apply abstract_insert_raises | apply raised_bind; intros ].
Qed.

Lemma sqlite_insert_raises (w : world SQLiteDatabase.t) (payload : BaseVotePayload.t) :
  raised (snd (SQLiteDatabase.insert payload w)) = true.
Proof.
  unfold SQLiteDatabase.insert.
  repeat first [ apply abstract_insert_raises | apply raised_bind; intros ].
Qed.

(** ** What the code does where the documented behaviour is another *)

(** C1.  No store gets as far as the claim supposes.  On a fresh root
    [connect] raises in both backends.  On a root whose counter file was
    seeded with 0, the JSON backend connects, its first [insert] raises, and
    [fetchmany] then raises instead of returning the one record with
    sequence 0: the file no longer holds a list. *)
Theorem inserts_then_fetchmany :
  snd (JSONDatabase.connect {| files := ∅; self := JSONDatabase.__init__ |})
  = Raise ValueError
  /\ snd (SQLiteDatabase.connect {| files := ∅; self := SQLiteDatabase.__init__ |})
     = Raise ValueError
  /\ snd (JSONDatabase.connect {| files := seeded; self := JSONDatabase.__init__ |})
     = Return tt
  /\ snd (JSONDatabase.insert vote_42 json_connected) = Raise UnsupportedOperation
  /\ snd (JSONDatabase.fetchmany (fst (JSONDatabase.insert vote_42 json_connected)))
     = Raise IndexError.
Proof. repeat split; vm_compute; reflexivity. Qed.

(** C2.  With the records 0 and 1 stored, [JSONDatabase.fetchone] raises
    [IndexError] for 2 and for -3 and returns record 1 for -1, where
    [SQLiteDatabase.fetchone] returns [None] for each. *)
Theorem fetchone_out_of_range :
  snd (JSONDatabase.fetchone 1 json_two_records) = Return (Some record_1)
  /\ snd (JSONDatabase.fetchone 2 json_two_records) = Raise IndexError
  /\ snd (JSONDatabase.fetchone (-1) json_two_records) = Return (Some record_1)
  /\ snd (JSONDatabase.fetchone (-3) json_two_records) = Raise IndexError
  /\ snd (SQLiteDatabase.fetchone 1 sqlite_two_records) = Return (Some record_1)
  /\ snd (SQLiteDatabase.fetchone 2 sqlite_two_records) = Return None
  /\ snd (SQLiteDatabase.fetchone (-1) sqlite_two_records) = Return None
  /\ snd (SQLiteDatabase.fetchone (-3) sqlite_two_records) = Return None.
Proof. repeat split; vm_compute; reflexivity. Qed.

(** C3.  [insert] never returns, in either backend and from any state; on
    the connected stores it raises [UnsupportedOperation] with the counter
    in memory at 1 and the counter file still at 0. *)
Theorem insert_does_not_persist_the_counter :
  (forall w payload, raised (snd (JSONDatabase.insert payload w)) = true)
  /\ (forall w payload, raised (snd (SQLiteDatabase.insert payload w)) = true)
  /\ (let w' := JSONDatabase.insert vote_42 json_connected in
      snd w' = Raise UnsupportedOperation
      /\ JSONDatabase.number (self (fst w')) = 1
      /\ files (fst w') !! number_txt = Some (File "0"))
  /\ (let w' := SQLiteDatabase.insert vote_42 sqlite_connected in
      snd w' = Raise UnsupportedOperation
      /\ SQLiteDatabase.number (self (fst w')) = 1
      /\ files (fst w') !! number_txt = Some (File "0")).
Proof.
  split; [exact json_insert_raises|].
  split; [exact sqlite_insert_raises|].
  repeat split; vm_compute; reflexivity.
Qed.

(** C4.  After the first [JSONDatabase.insert], [votes.json] holds the JSON
    string whose content is the old text of the file, not the array with the
    new tuple; the second [insert] finds a string where it wants a list and
    raises before it writes. *)
Theorem json_insert_dumps_the_text :
  let w1 := fst (JSONDatabase.insert vote_42 json_connected) in
  files json_connected !! votes_json = Some (File "[]")
  /\ files w1 !! votes_json = Some (File (json_dumps (Some 4%nat) (PStr "[]")))
  /\ json_loads (json_dumps (Some 4%nat) (PStr "[]")) = Return (PStr "[]")
  /\ json_loads (json_dumps (Some 4%nat)
                   (PList [tuple_of_row {| r_number := 0; r_user_id := 42;
                                           r_time := isoformat new_year;
                                           r_site := "example" |}]))
     = Return (PList [PList [PInt 0; PInt 42;
                             PStr "2024-01-01T00:00:00+00:00"; PStr "example"]])
  /\ snd (JSONDatabase.insert vote_42 w1) = Raise AttributeError
  /\ files (fst (JSONDatabase.insert vote_42 w1)) = files w1.
Proof. cbv zeta. repeat split; vm_compute; reflexivity. Qed.

(** C5.  The vote of user 42 on site example: in the JSON backend the
    [insert] raises and [fetchone 0] raises after it; in the SQLite backend
    the [insert] raises too, after the commit, and [fetchone 0] returns the
    record. *)
Theorem round_trip_of_vote_42 :
  let wj := fst (JSONDatabase.insert vote_42 json_connected) in
  let ws := fst (SQLiteDatabase.insert vote_42 sqlite_connected) in
  snd (JSONDatabase.insert vote_42 json_connected) = Raise UnsupportedOperation
  /\ snd (JSONDatabase.fetchone 0 wj) = Raise IndexError
  /\ snd (SQLiteDatabase.insert vote_42 sqlite_connected) = Raise UnsupportedOperation
  /\ snd (SQLiteDatabase.fetchone 0 ws)
     = Return (Some {| CachedVote.number := PInt 0; CachedVote.id := PInt 42;
                       CachedVote.time := new_year;
                       CachedVote.site := PStr "example" |}).
Proof. cbv zeta. repeat split; vm_compute; reflexivity. Qed.

(** C6.  The same vote given to both backends, each connected on the seeded
    root: [fetchmany] of the JSON backend raises, that of the SQLite backend
    returns one record. *)
Theorem backends_after_the_same_insert :
  let wj := fst (JSONDatabase.insert vote_42 json_connected) in
  let ws := fst (SQLiteDatabase.insert vote_42 sqlite_connected) in
  snd (JSONDatabase.fetchmany json_connected) = Return []
  /\ snd (SQLiteDatabase.fetchmany sqlite_connected) = Return []
  /\ snd (JSONDatabase.fetchmany wj) = Raise IndexError
  /\ snd (SQLiteDatabase.fetchmany ws)
     = Return [ {| CachedVote.number := PInt 0; CachedVote.id := PInt 42;
                   CachedVote.time := new_year;
                   CachedVote.site := PStr "example" |} ]
  /\ snd (JSONDatabase.fetchmany wj) <> snd (SQLiteDatabase.fetchmany ws).
Proof.
  cbv zeta. repeat split; try (vm_compute; reflexivity).
  vm_compute. discriminate.
Qed.

(** C8.  On a fresh root the first two statements of [connect] make the
    directory and make [number.txt] empty; [int] accepts the content 0 the
    claim names and refuses the empty content the file has. *)
Theorem root_init_leaves_counter_empty :
  AbstractDatabase.connect_root {| files := ∅; self := JSONDatabase.__init__ |}
  = ({| files := <[number_txt := File ""]> (<[root := Dir]> ∅);
        self := JSONDatabase.__init__ |}, Return tt)
  /\ int_of_str "0" = Return 0
  /\ int_of_str "" = Raise ValueError.
Proof. repeat split; vm_compute; reflexivity. Qed.

(** ** Further properties of the code *)

(** The first two statements of [connect] never raise, change nothing when
    run again, and leave what existed as it was. *)
Theorem root_init_idempotent (w : world JSONDatabase.t) :
  snd (AbstractDatabase.connect_root w) = Return tt
  /\ AbstractDatabase.connect_root (fst (AbstractDatabase.connect_root w))
     = AbstractDatabase.connect_root w
  /\ (forall p x, files w !! p = Some x ->
                  files (fst (AbstractDatabase.connect_root w)) !! p = Some x).
Proof.
  rewrite !connect_root_rooted. cbn [fst snd files self].
  split; [reflexivity|]. split.
  - rewrite rooted_idem. reflexivity.
  - intros p x. apply rooted_keeps.
Qed.



Lemma no_row_numbered (rows : list row) (n : Z) :
  Forall (fun r => r_number r < n) rows ->
  existsb (fun x => r_number x =? n) rows = false.
Proof.
  induction 1 as [|r rows Hr _ IH]; [reflexivity|].
  cbn. rewrite IH. replace (r_number r =? n) with false; [reflexivity|].
  symmetry. apply Z.eqb_neq. lia.
Qed.

(** One [insert] into a connected SQLite store whose rows are numbered below
    the counter: the row is committed and the counter in memory goes up,
    whatever the call raises afterwards. *)
Lemma sqlite_insert_step (w : world SQLiteDatabase.t) (p : BaseVotePayload.t)
    (rows : list row) :
  SQLiteDatabase.conn (self w) = Some fresh_conn ->
  files w !! votes_db = Some (Sqlite {| votes := Some rows |}) ->
  Forall (fun r => r_number r < SQLiteDatabase.number (self w)) rows ->
  fits_int64 (SQLiteDatabase.number (self w)) = true ->
  fits_int64 (BaseVotePayload.user_id p) = true ->
  files (fst (SQLiteDatabase.insert p w))
  = <[votes_db := Sqlite {| votes := Some (rows ++ [row_of (SQLiteDatabase.number (self w)) p])%list |}]>
      (files w)
  /\ self (fst (SQLiteDatabase.insert p w))
     = {| SQLiteDatabase.conn := Some fresh_conn;
          SQLiteDatabase.number := SQLiteDatabase.number (self w) + 1 |}.
Proof.
  destruct w as [fs [c n]]. cbn [files self SQLiteDatabase.conn SQLiteDatabase.number].
  intros -> Hdb Hrows Hn Hu.
  db_unfold. io_unfold. unfold current_db, fresh_conn.
  cbn. rewrite Hn, Hu. cbn. rewrite Hdb. cbn.
  rewrite (no_row_numbered _ _ Hrows). norm.
  unfold row_of.
  repeat (split_match; norm); split; reflexivity.
Qed.

Lemma insert_each_rows (ps : list BaseVotePayload.t) :
  forall (w : world SQLiteDatabase.t) (rows : list row),
    SQLiteDatabase.conn (self w) = Some fresh_conn ->
    files w !! votes_db = Some (Sqlite {| votes := Some rows |}) ->
    Forall (fun r => r_number r < SQLiteDatabase.number (self w)) rows ->
    - 2 ^ 63 <= SQLiteDatabase.number (self w) ->
    SQLiteDatabase.number (self w) + Z.of_nat (length ps) <= 2 ^ 63 ->
    Forall (fun p => fits_int64 (BaseVotePayload.user_id p) = true) ps ->
    files (insert_each ps w) !! votes_db
    = Some (Sqlite {| votes := Some (rows ++ rows_from (SQLiteDatabase.number (self w)) ps)%list |})
    /\ self (insert_each ps w)
       = {| SQLiteDatabase.conn := Some fresh_conn;
            SQLiteDatabase.number := SQLiteDatabase.number (self w) + Z.of_nat (length ps) |}.
Proof.
  induction ps as [|p ps IH]; intros w rows Hconn Hdb Hrows Hlo Hhi Hps.
  - cbn [insert_each rows_from length]. rewrite app_nil_r, Z.add_0_r. split; [assumption|].
    destruct w as [fs [c n]]. cbn in *. congruence.
  - cbn [insert_each rows_from]. cbn [length] in Hhi.
    inversion Hps as [|? ? Hp Hps']; subst.
    assert (Hfit : fits_int64 (SQLiteDatabase.number (self w)) = true).
    { unfold fits_int64. apply andb_true_intro. split; [apply Z.leb_le | apply Z.ltb_lt]; lia. }
    destruct (sqlite_insert_step w p rows Hconn Hdb Hrows Hfit Hp) as [Hfiles Hself].
    destruct (IH (fst (SQLiteDatabase.insert p w))
                (rows ++ [row_of (SQLiteDatabase.number (self w)) p])%list)
      as [IHfiles IHself].
    + rewrite Hself. reflexivity.
    + rewrite Hfiles. apply lookup_insert_eq.
    + rewrite Hself. cbn [SQLiteDatabase.number].
      apply Forall_app. split.
      * eapply Forall_impl; [exact Hrows|]. cbn. intros; lia.
      * constructor; [cbn; lia | constructor].
    + rewrite Hself. cbn [SQLiteDatabase.number]. lia.
    + rewrite Hself. cbn [SQLiteDatabase.number]. lia.
    + assumption.
    + rewrite IHfiles, IHself, Hself. cbn [SQLiteDatabase.number].
      rewrite <- app_assoc. cbn [app]. split; [reflexivity|].
      f_equal. cbn [length]. lia.
Qed.

Lemma rows_read_back (ps : list BaseVotePayload.t) :
  forall n : Z,
    Forall (fun p => fromisoformat (isoformat (BaseVotePayload.time p))
                     = Return (BaseVotePayload.time p)) ps ->
    omapM SQLiteDatabase.vote_of_row (rows_from n ps) = Return (votes_from n ps).
Proof.
  induction ps as [|p ps IH]; intros n Hps; [reflexivity|].
  inversion Hps as [|? ? Hp Hps']; subst.
  cbn [rows_from votes_from omapM].
  unfold SQLiteDatabase.vote_of_row at 1, row_of. cbn [r_time r_number r_user_id r_site].
  rewrite Hp. cbn [obind]. rewrite (IH _ Hps'). reflexivity.
Qed.

Lemma votes_from_numbers (ps : list BaseVotePayload.t) :
  forall n : Z,
    map CachedVote.number (votes_from n ps)
    = map PInt (seqZ n (Z.of_nat (length ps))).
Proof.
  induction ps as [|p ps IH]; intros n; [reflexivity|].
  cbn [votes_from map length CachedVote.number].
  rewrite Nat2Z.inj_succ, seqZ_cons by lia.
  rewrite Z.pred_succ. cbn [map]. rewrite IH. reflexivity.
Qed.

(** The SQLite backend numbers what it stores.  From a connected store with
    an empty table and the counter at [n], after one [insert] per payload of
    [ps] (each of which raises after its commit),
    [fetchmany] returns one record per payload, in order, with the sequence
    numbers [n], [n + 1], ... *)
Theorem sqlite_fetchmany_after_inserts
    (ps : list BaseVotePayload.t) (w : world SQLiteDatabase.t) :
  SQLiteDatabase.conn (self w) = Some fresh_conn ->
  files w !! votes_db = Some (Sqlite {| votes := Some [] |}) ->
  - 2 ^ 63 <= SQLiteDatabase.number (self w) ->
  SQLiteDatabase.number (self w) + Z.of_nat (length ps) <= 2 ^ 63 ->
  Forall (fun p => fits_int64 (BaseVotePayload.user_id p) = true) ps ->
  Forall (fun p => fromisoformat (isoformat (BaseVotePayload.time p))
                   = Return (BaseVotePayload.time p)) ps ->
  snd (SQLiteDatabase.fetchmany (insert_each ps w))
  = Return (votes_from (SQLiteDatabase.number (self w)) ps)
  /\ map CachedVote.number (votes_from (SQLiteDatabase.number (self w)) ps)
     = map PInt (seqZ (SQLiteDatabase.number (self w)) (Z.of_nat (length ps))).
Proof.
  intros Hconn Hdb Hlo Hhi Hfit Htime.
  split; [|apply votes_from_numbers].
  destruct (insert_each_rows ps w [] Hconn Hdb (List.Forall_nil _) Hlo Hhi Hfit)
    as [Hfiles Hself].
  cbn [app] in Hfiles.
  destruct (insert_each ps w) as [fs' s']. cbn [files self] in Hfiles, Hself. subst s'.
  unfold SQLiteDatabase.fetchmany, SQLiteDatabase.query, select_votes, current_db,
    fresh_conn, bind, get_self, on_files, lift.
  cbn [self files SQLiteDatabase.conn pending db_path fst snd].
  rewrite Hfiles. cbn [votes snd fst].
  apply rows_read_back. assumption.
Qed.

Lemma sqlite_fetchmany_after_inserts_witness :
  snd (SQLiteDatabase.fetchmany (insert_each [vote_42; vote_7] sqlite_connected))
  = Return (votes_from 0 [vote_42; vote_7])
  /\ map CachedVote.number (votes_from 0 [vote_42; vote_7]) = [PInt 0; PInt 1].
Proof.
  apply (sqlite_fetchmany_after_inserts [vote_42; vote_7] sqlite_connected).
  - vm_compute. reflexivity.
  - vm_compute. reflexivity.
  - vm_compute. discriminate.
  - vm_compute. discriminate.
  - repeat constructor.
  - repeat constructor.
Defined.

(** ** [mkdir] and [mkfile] *)


(** ** [SQLiteDatabase.fetchone] looks a vote up by its number *)



Lemma sqlite_fetchone_find (w : world SQLiteDatabase.t) (rows : list row) (k : Z) :
  SQLiteDatabase.conn (self w) = Some fresh_conn ->
  files w !! votes_db = Some (Sqlite {| votes := Some rows |}) ->
  fits_int64 k = true ->
  snd (SQLiteDatabase.fetchone k w)
  = match List.find (fun x => r_number x =? k) rows with
    | None => Return None
    | Some r =>
        match SQLiteDatabase.vote_of_row r with
        | Return v => Return (Some v)
        | Raise e => Raise e
        end
    end.
Proof.
  destruct w as [fs [c n]]. cbn [files self SQLiteDatabase.conn].
  intros -> Hdb Hk.
  db_unfold. io_unfold. unfold current_db, fresh_conn. cbn.
  rewrite Hk, Hdb. cbn.
  destruct (List.find _ rows) as [r|]; [|reflexivity].
  destruct (SQLiteDatabase.vote_of_row r); reflexivity.
Qed.



(** ** An [INSERT] that fails *)





(** ** A new object on the files of an old one *)




(** ** The JSON backend without its file *)

Lemma json_read_votes_missing (w : world JSONDatabase.t) :
  files w !! root = Some Dir ->
  files w !! votes_json = None ->
  JSONDatabase.read_votes w = (w, Raise FileNotFoundError).
Proof.
  destruct w as [fs s]. cbn [files]. intros Hroot Hj.
  unfold JSONDatabase.read_votes. io_unfold. norm. reflexivity.
Qed.

Lemma bind_raise {W0 A B} (m : io W0 A) (k : A -> io W0 B) (w w' : W0) (e : exn) :
  m w = (w', Raise e) -> bind m k w = (w', Raise e).
Proof. intros Hm. unfold bind. rewrite Hm. reflexivity. Qed.

Lemma bind_return {W0 A B} (m : io W0 A) (k : A -> io W0 B) (w w' : W0) (a : A) :
  m w = (w', Return a) -> bind m k w = k a w'.
Proof. intros Hm. unfold bind. rewrite Hm. reflexivity. Qed.

(** With the directory in place and no [votes.json] (the object never
    connected, or the file was removed), [fetchone], [fetchmany] and
    [insert] of the JSON backend raise [FileNotFoundError] and change
    nothing. *)
Theorem json_without_votes_file
    (w : world JSONDatabase.t) (k : Z) (payload : BaseVotePayload.t) :
  files w !! root = Some Dir ->
  files w !! votes_json = None ->
  JSONDatabase.fetchone k w = (w, Raise FileNotFoundError)
  /\ JSONDatabase.fetchmany w = (w, Raise FileNotFoundError)
  /\ JSONDatabase.insert payload w = (w, Raise FileNotFoundError).
Proof.
  intros Hroot Hj.
  unfold JSONDatabase.fetchone, JSONDatabase.fetchmany, JSONDatabase.insert.
  repeat split; apply bind_raise, json_read_votes_missing; assumption.
Qed.

Lemma json_without_votes_file_witness :
  let w := {| files := seeded; self := JSONDatabase.__init__ |} in
  JSONDatabase.fetchone 0 w = (w, Raise FileNotFoundError)
  /\ JSONDatabase.fetchmany w = (w, Raise FileNotFoundError)
  /\ JSONDatabase.insert vote_42 w = (w, Raise FileNotFoundError).
Proof.
  apply (json_without_votes_file {| files := seeded; self := JSONDatabase.__init__ |});
    reflexivity.
Defined.

(** ** Reading a JSON document *)

Lemma json_read_votes_text (w : world JSONDatabase.t) (content : string) :
  files w !! root = Some Dir ->
  files w !! votes_json = Some (File content) ->
  JSONDatabase.read_votes w = (w, Return content).
Proof.
  destruct w as [fs s]. cbn [files]. intros Hroot Hj.
  unfold JSONDatabase.read_votes. io_unfold. norm. reflexivity.
Qed.

Lemma nth_error_lookup {A} (l : list A) (i : nat) : nth_error l i = l !! i.
Proof. revert i. induction l as [|x l IH]; intros [|i]; cbn; auto. Qed.

Lemma seq_index_outside {A} (l : list A) (k : Z) :
  k < - Z.of_nat (length l) \/ Z.of_nat (length l) <= k ->
  seq_index l k = Raise IndexError.
Proof.
  intros Hk. unfold seq_index.
  destruct (Z.ltb_spec k 0); cbn zeta.
  - replace (k + Z.of_nat (length l) <? 0) with true; [reflexivity|].
    symmetry. apply Z.ltb_lt. lia.
  - replace (k <? 0) with false by (symmetry; apply Z.ltb_ge; lia).
    replace (Z.of_nat (length l) <=? k) with true; [reflexivity|].
    symmetry. apply Z.leb_le. lia.
Qed.

Lemma seq_index_inside {A} (l : list A) (i : nat) (x : A) (k : Z) :
  l !! i = Some x ->
  k = Z.of_nat i \/ k = Z.of_nat i - Z.of_nat (length l) ->
  seq_index l k = Return x.
Proof.
  intros Hi Hk. pose proof (lookup_lt_Some _ _ _ Hi) as Hlt.
  unfold seq_index.
  assert (Hj : (if k <? 0 then k + Z.of_nat (length l) else k) = Z.of_nat i).
  { destruct (Z.ltb_spec k 0); lia. }
  rewrite Hj.
  replace (Z.of_nat i <? 0) with false by (symmetry; apply Z.ltb_ge; lia).
  replace (Z.of_nat (length l) <=? Z.of_nat i) with false
    by (symmetry; apply Z.leb_gt; lia).
  cbn [orb]. rewrite Nat2Z.id, nth_error_lookup, Hi. reflexivity.
Qed.

Lemma vote_of_tuple (a b s : pyval) (t : string) :
  JSONDatabase.vote_of (PList [a; b; PStr t; s])
  = match fromisoformat t with
    | Return tm =>
        Return {| CachedVote.number := a; CachedVote.id := b;
                  CachedVote.time := tm; CachedVote.site := s |}
    | Raise e => Raise e
    end.
Proof. reflexivity. Qed.

Lemma json_fetchone_loaded (w : world JSONDatabase.t) (content : string)
    (l : list pyval) (k : Z) :
  files w !! root = Some Dir ->
  files w !! votes_json = Some (File content) ->
  json_loads content = Return (PList l) ->
  JSONDatabase.fetchone k w
  = (w, match seq_index l k with
        | Return d =>
            match JSONDatabase.vote_of d with
            | Return v => Return (Some v)
            | Raise e => Raise e
            end
        | Raise e => Raise e
        end).
Proof.
  intros Hroot Hj Hload. unfold JSONDatabase.fetchone.
  rewrite (bind_return _ _ _ _ _ (json_read_votes_text w content Hroot Hj)).
  unfold bind, lift, ret. rewrite Hload. cbn [getitem].
  destruct (seq_index l k) as [d|e]; [|reflexivity].
  destruct (JSONDatabase.vote_of d); reflexivity.
Qed.

(** [JSONDatabase.fetchone] reads by position.  It never returns [None],
    in any state.  When [votes.json] holds a list of [n] elements,
    [fetchone k] raises [IndexError] for [k >= n] and for [k < -n]; it
    returns the record made of the tuple at position [k], or at position
    [n + k] for a negative [k], with the number that tuple holds. *)
Theorem json_fetchone_by_position
    (w : world JSONDatabase.t) (content : string) (l : list pyval) (k : Z) :
  files w !! root = Some Dir ->
  files w !! votes_json = Some (File content) ->
  json_loads content = Return (PList l) ->
  (forall w' k', snd (JSONDatabase.fetchone k' w') <> Return None)
  /\ (k < - Z.of_nat (length l) \/ Z.of_nat (length l) <= k ->
      JSONDatabase.fetchone k w = (w, Raise IndexError))
  /\ (forall (i : nat) (a b s : pyval) (t : string) (tm : datetime),
        l !! i = Some (PList [a; b; PStr t; s]) ->
        fromisoformat t = Return tm ->
        k = Z.of_nat i \/ k = Z.of_nat i - Z.of_nat (length l) ->
        JSONDatabase.fetchone k w
        = (w, Return (Some {| CachedVote.number := a; CachedVote.id := b;
                              CachedVote.time := tm; CachedVote.site := s |}))).
Proof.
  intros Hroot Hj Hload. split; [|split].
  - intros w' k'. unfold JSONDatabase.fetchone, bind, lift, ret.
    repeat (split_match; cbn [snd]); discriminate.
  - intros Hk. rewrite (json_fetchone_loaded w content l k Hroot Hj Hload).
    rewrite (seq_index_outside l k Hk). reflexivity.
  - intros i a b s t tm Hi Ht Hk.
    rewrite (json_fetchone_loaded w content l k Hroot Hj Hload).
    rewrite (seq_index_inside l i _ k Hi Hk).
    rewrite vote_of_tuple, Ht. reflexivity.
Qed.

Lemma json_fetchone_by_position_witness :
  JSONDatabase.fetchone 2 json_two_records = (json_two_records, Raise IndexError)
  /\ JSONDatabase.fetchone (-1) json_two_records
     = (json_two_records, Return (Some record_1)).
Proof.
  split.
  - destruct (json_fetchone_by_position json_two_records
                (json_dumps None (PList (map tuple_of_row two_rows)))
                (map tuple_of_row two_rows) 2) as (_ & Hout & _);
      [reflexivity | reflexivity | vm_compute; reflexivity |].
    apply Hout. right. cbn. lia.
  - destruct (json_fetchone_by_position json_two_records
                (json_dumps None (PList (map tuple_of_row two_rows)))
                (map tuple_of_row two_rows) (-1)) as (_ & _ & Hin);
      [reflexivity | reflexivity | vm_compute; reflexivity |].
    apply (Hin 1%nat (PInt 1) (PInt 2) (PStr "b") (isoformat next_day) next_day).
    + reflexivity.
    + vm_compute. reflexivity.
    + right. cbn. lia.
Defined.

(** ** The two backends on the same records *)

Lemma vote_of_tuple_of_row (r : row) :
  JSONDatabase.vote_of (tuple_of_row r) = SQLiteDatabase.vote_of_row r.
Proof.
  unfold tuple_of_row. rewrite vote_of_tuple. unfold SQLiteDatabase.vote_of_row.
  destruct (fromisoformat (r_time r)); reflexivity.
Qed.

Lemma omapM_tuples (rows : list row) :
  omapM JSONDatabase.vote_of (map tuple_of_row rows)
  = omapM SQLiteDatabase.vote_of_row rows.
Proof.
  induction rows as [|r rows IH]; [reflexivity|].
  cbn [map omapM]. rewrite vote_of_tuple_of_row, IH. reflexivity.
Qed.

Lemma find_numbered (rows : list row) :
  forall (m : Z) (i : nat),
    map r_number rows = seqZ m (Z.of_nat (length rows)) ->
    (i < length rows)%nat ->
    List.find (fun x => r_number x =? m + Z.of_nat i) rows = rows !! i.
Proof.
  induction rows as [|r rows IH]; intros m i Hnum Hi; [cbn in Hi; lia|].
  cbn [length map] in Hnum. rewrite Nat2Z.inj_succ, seqZ_cons in Hnum by lia.
  rewrite Z.pred_succ in Hnum. injection Hnum as Hr Hrest.
  cbn [List.find]. destruct i as [|i].
  - rewrite Z.add_0_r, Hr, Z.eqb_refl. reflexivity.
  - replace (r_number r =? m + Z.of_nat (S i)) with false
      by (symmetry; apply Z.eqb_neq; lia).
    cbn [lookup]. replace (m + Z.of_nat (S i)) with (Z.succ m + Z.of_nat i) by lia.
    cbn [length] in Hi. rewrite (IH (Z.succ m) i Hrest) by lia. reflexivity.
Qed.

(** A JSON document that holds the tuples of some rows and a table that
    holds the rows themselves read alike: [fetchmany] gives the same result
    in both backends, and when the rows are numbered 0, 1, ... in order,
    so does [fetchone k] for every [k] from 0 to below the number of rows. *)
Theorem backends_read_alike
    (wj : world JSONDatabase.t) (ws : world SQLiteDatabase.t)
    (content : string) (rows : list row) :
  files wj !! root = Some Dir ->
  files wj !! votes_json = Some (File content) ->
  json_loads content = Return (PList (map tuple_of_row rows)) ->
  SQLiteDatabase.conn (self ws) = Some fresh_conn ->
  files ws !! votes_db = Some (Sqlite {| votes := Some rows |}) ->
  snd (JSONDatabase.fetchmany wj) = snd (SQLiteDatabase.fetchmany ws)
  /\ (map r_number rows = seqZ 0 (Z.of_nat (length rows)) ->
      Z.of_nat (length rows) <= 2 ^ 63 ->
      forall k, 0 <= k < Z.of_nat (length rows) ->
                snd (JSONDatabase.fetchone k wj) = snd (SQLiteDatabase.fetchone k ws)).
Proof.
  intros Hroot Hj Hload Hconn Hdb. split.
  - unfold JSONDatabase.fetchmany.
    rewrite (bind_return _ _ _ _ _ (json_read_votes_text wj content Hroot Hj)).
    unfold bind, lift. rewrite Hload. cbn [iterate snd]. rewrite omapM_tuples.
    destruct ws as [fs [c n]]. cbn [files self SQLiteDatabase.conn] in Hconn, Hdb.
    subst c.
    unfold SQLiteDatabase.fetchmany, SQLiteDatabase.query, select_votes, current_db,
      fresh_conn, bind, get_self, on_files, lift.
    cbn [self files SQLiteDatabase.conn pending db_path fst snd].
    rewrite Hdb. reflexivity.
  - intros Hnum Hlen k Hk.
    rewrite (json_fetchone_loaded wj content _ k Hroot Hj Hload). cbn [snd].
    assert (Hfit : fits_int64 k = true).
    { unfold fits_int64. apply andb_true_intro.
      split; [apply Z.leb_le | apply Z.ltb_lt]; lia. }
    rewrite (sqlite_fetchone_find ws rows k Hconn Hdb Hfit).
    assert (Hi : (Z.to_nat k < length rows)%nat) by lia.
    destruct (lookup_lt_is_Some_2 rows (Z.to_nat k) Hi) as [r Hr].
    pose proof (find_numbered rows 0 (Z.to_nat k) Hnum Hi) as Hfind.
    rewrite Z.add_0_l, Z2Nat.id in Hfind by lia. rewrite Hfind, Hr.
    rewrite (seq_index_inside (map tuple_of_row rows) (Z.to_nat k) (tuple_of_row r) k).
    + rewrite vote_of_tuple_of_row. reflexivity.
    + rewrite list_lookup_fmap, Hr. reflexivity.
    + left. lia.
Qed.

Lemma backends_read_alike_witness :
  snd (JSONDatabase.fetchmany json_two_records)
  = snd (SQLiteDatabase.fetchmany sqlite_two_records)
  /\ snd (JSONDatabase.fetchone 1 json_two_records)
     = snd (SQLiteDatabase.fetchone 1 sqlite_two_records).
Proof.
  destruct (backends_read_alike json_two_records sqlite_two_records
              (json_dumps None (PList (map tuple_of_row two_rows))) two_rows)
    as [Hmany Hone];
    [reflexivity | reflexivity | vm_compute; reflexivity | reflexivity | reflexivity |].
  split; [exact Hmany|].
  apply Hone; [reflexivity | vm_compute; discriminate | cbn; lia].
Defined.

(** ** What [connect] leaves in place, and what it creates *)

(** [connect] destroys no data.  In the JSON backend every file and
    directory that exists is left as it is.  In the SQLite backend so is
    everything but [votes.db], and a [votes.db] that has the table [votes]
    keeps its rows. *)
Theorem connect_keeps_what_exists :
  (forall (w : world JSONDatabase.t) (p : string) (x : node),
     files w !! p = Some x ->
     files (fst (JSONDatabase.connect w)) !! p = Some x)
  /\ (forall (w : world SQLiteDatabase.t) (p : string) (x : node),
        files w !! p = Some x ->
        p <> votes_db \/ (exists rows, x = Sqlite {| votes := Some rows |}) ->
        files (fst (SQLiteDatabase.connect w)) !! p = Some x).
Proof.
  split.
  - intros w p x Hp. rewrite json_connect_closed_form.
    pose proof (rooted_keeps _ _ _ Hp) as Hk.
    destruct (read_number (rooted (files w))); cbn [fst files]; [|assumption].
    unfold with_votes_json.
    destruct (rooted (files w) !! votes_json) eqn:Hj; [assumption|].
    apply insert_keeps; assumption.
  - intros w p x Hp Hcase. rewrite sqlite_connect_closed_form.
    pose proof (rooted_keeps _ _ _ Hp) as Hk.
    destruct (read_number (rooted (files w))); cbn [fst files]; [|assumption].
    unfold sqlite_opened.
    destruct (rooted (files w) !! votes_db) as [[|[|ch tl]|[[rows|]]]|] eqn:Hd;
      cbn [fst files]; try assumption.
    + destruct Hcase as [Hne|[rows Hx]].
      * rewrite lookup_insert_ne by congruence. assumption.
      * destruct (decide (p = votes_db)) as [->|Hne];
          [congruence | rewrite lookup_insert_ne by congruence; assumption].
    + destruct Hcase as [Hne|[rows Hx]].
      * rewrite lookup_insert_ne by congruence. assumption.
      * destruct (decide (p = votes_db)) as [->|Hne];
          [congruence | rewrite lookup_insert_ne by congruence; assumption].
    + apply insert_keeps; assumption.
Qed.

Lemma connect_keeps_what_exists_witness :
  files (fst (JSONDatabase.connect json_two_records)) !! votes_json
  = files json_two_records !! votes_json
  /\ files (fst (SQLiteDatabase.connect sqlite_two_records)) !! votes_db
     = Some (Sqlite {| votes := Some two_rows |}).
Proof.
  destruct connect_keeps_what_exists as [Hj Hs]. split.
  - apply Hj. reflexivity.
  - apply Hs; [reflexivity|]. right. exists two_rows. reflexivity.
Defined.




(** ** What [json.dumps] writes of a string, [json.loads] reads back *)

Lemma chars_append (a b : string) : chars (a +:+ b) = (chars a ++ chars b)%list.
Proof.
  unfold chars. induction a as [|c a IH]; [reflexivity|].
  change (String c a +:+ b) with (String c (a +:+ b)).
  cbn [list_ascii_of_string app]. rewrite IH. reflexivity.
Qed.

Lemma chars_concat (x : string) (xs : list string) :
  chars (String.concat "" (x :: xs))
  = (chars x ++ chars (String.concat "" xs))%list.
Proof.
  destruct xs as [|y ys].
  - cbn. rewrite app_nil_r. reflexivity.
  - change (String.concat "" (x :: y :: ys))
      with (x +:+ ("" +:+ String.concat "" (y :: ys))).
    rewrite chars_append. reflexivity.
Qed.

Lemma scanstring_escape_char (c : ascii) (tail : list ascii) :
  scanstring (chars (escape_char c) ++ tail)%list
  = match scanstring tail with
    | Return p => Return (c :: fst p, snd p)
    | Raise e => Raise e
    end.
Proof.
  destruct c as [[] [] [] [] [] [] [] []]; reflexivity.
Qed.

Lemma scanstring_escaped (cs rest : list ascii) :
  scanstring (chars (String.concat "" (map escape_char cs)) ++ dquote :: rest)%list
  = Return (cs, rest).
Proof.
  induction cs as [|c cs IH]; [reflexivity|].
  cbn [map]. rewrite chars_concat, <- app_assoc, scanstring_escape_char, IH.
  reflexivity.
Qed.

Lemma loads_dumps_str (indent : option nat) (s : string) :
  json_loads (json_dumps indent (PStr s)) = Return (PStr s).
Proof.
  unfold json_loads, json_dumps. cbn [dumps_at]. unfold dumps_str.
  change (chars (String dquote (String.concat "" (map escape_char (chars s)))
                 +:+ String dquote EmptyString))
    with (dquote :: chars (String.concat "" (map escape_char (chars s))
                           +:+ String dquote EmptyString)).
  rewrite chars_append.
  change (chars (String dquote EmptyString)) with [dquote].
  set (body := chars (String.concat "" (map escape_char (chars s)))).
  replace (2 * length (dquote :: body ++ [dquote])%list + 2)%nat
    with (S (2 * length (dquote :: body ++ [dquote])%list + 1))%nat by lia.
  change (skip_ws (dquote :: body ++ [dquote])%list) with (dquote :: body ++ [dquote])%list.
  cbn [scan_once]. change (Ascii.eqb dquote dquote) with true. cbn iota.
  unfold body. rewrite scanstring_escaped. cbn.
  unfold text, chars. rewrite string_of_list_ascii_of_string. reflexivity.
Qed.

(** ** After a [JSONDatabase.insert] *)

Lemma json_insert_files (w : world JSONDatabase.t) (payload : BaseVotePayload.t)
    (old : string) (l : list pyval) :
  files w !! root = Some Dir ->
  files w !! votes_json = Some (File old) ->
  json_loads old = Return (PList l) ->
  files (fst (JSONDatabase.insert payload w))
  = <[votes_json := File (json_dumps (Some 4%nat) (PStr old))]> (files w).
Proof.
  destruct w as [fs s]. cbn [files]. intros Hroot Hold Hload.
  db_unfold. io_unfold. norm. rewrite Hload. norm.
  repeat (split_match; norm); rewrite ?insert_insert_eq; reflexivity.
Qed.

Lemma loads_not_empty (content : string) (v : pyval) :
  json_loads content = Return v -> exists c cs, chars content = c :: cs.
Proof.
  destruct content as [|c content]; [discriminate|]. intros _. eauto.
Qed.

Lemma vote_of_char (c : ascii) : JSONDatabase.vote_of (char1 c) = Raise IndexError.
Proof. reflexivity. Qed.

(** One [insert] makes the JSON store unreadable.  When [votes.json] holds a
    JSON list, after [JSONDatabase.insert] the file holds a JSON string, and
    from then on [fetchone] raises [IndexError] for every number,
    [fetchmany] raises [IndexError], and every further [insert] raises
    [AttributeError] and changes nothing. *)
Theorem json_insert_leaves_store_unreadable
    (w : world JSONDatabase.t) (payload : BaseVotePayload.t)
    (old : string) (l : list pyval) :
  files w !! root = Some Dir ->
  files w !! votes_json = Some (File old) ->
  json_loads old = Return (PList l) ->
  let w1 := fst (JSONDatabase.insert payload w) in
  (forall k, JSONDatabase.fetchone k w1 = (w1, Raise IndexError))
  /\ JSONDatabase.fetchmany w1 = (w1, Raise IndexError)
  /\ (forall q, JSONDatabase.insert q w1 = (w1, Raise AttributeError)).
Proof.
  intros Hroot Hold Hload w1.
  pose proof (json_insert_files w payload old l Hroot Hold Hload) as Hfiles.
  fold w1 in Hfiles.
  assert (Hroot1 : files w1 !! root = Some Dir).
  { rewrite Hfiles, lookup_insert_ne by paths. assumption. }
  assert (Hjson1 : files w1 !! votes_json
                   = Some (File (json_dumps (Some 4%nat) (PStr old)))).
  { rewrite Hfiles. apply lookup_insert_eq. }
  pose proof (json_read_votes_text w1 _ Hroot1 Hjson1) as Hread.
  pose proof (loads_dumps_str (Some 4%nat) old) as Hround.
  destruct (loads_not_empty old _ Hload) as (c & cs & Hchars).
  split; [|split].
  - intros k. unfold JSONDatabase.fetchone.
    rewrite (bind_return _ _ _ _ _ Hread).
    unfold bind, lift, ret. rewrite Hround. cbn [getitem].
    destruct (seq_index (chars old) k) as [d|e] eqn:Hidx; cbn [obind].
    + rewrite vote_of_char. reflexivity.
    + unfold seq_index in Hidx.
      repeat (match type of Hidx with
              | context [match ?x with _ => _ end] => destruct x
              | context [if ?x then _ else _] => destruct x
              end); congruence.
  - unfold JSONDatabase.fetchmany.
    rewrite (bind_return _ _ _ _ _ Hread).
    unfold bind, lift. rewrite Hround. cbn [iterate]. rewrite Hchars.
    cbn [map omapM]. rewrite vote_of_char. reflexivity.
  - intros q. unfold JSONDatabase.insert.
    rewrite (bind_return _ _ _ _ _ Hread).
    unfold bind, lift, get_self. rewrite Hround. reflexivity.
Qed.

Lemma json_insert_leaves_store_unreadable_witness :
  let w1 := fst (JSONDatabase.insert vote_42 json_two_records) in
  JSONDatabase.fetchone 0 w1 = (w1, Raise IndexError)
  /\ JSONDatabase.fetchmany w1 = (w1, Raise IndexError)
  /\ JSONDatabase.insert vote_7 w1 = (w1, Raise AttributeError).
Proof.
  destruct (json_insert_leaves_store_unreadable json_two_records vote_42
              (json_dumps None (PList (map tuple_of_row two_rows)))
              (map tuple_of_row two_rows))
    as (Hone & Hmany & Hins);
    [reflexivity | reflexivity | vm_compute; reflexivity |].
  cbv zeta. split; [apply Hone|]. split; [exact Hmany | apply Hins].
Defined.

(** ** Decimal digits *)














(** ** [int] reads what [str] writes *)






(** ** The counter file as [insert] means to write it *)



(** ** Timestamps: [fromisoformat] after [isoformat] *)
















